(** * MCPC protocol helper ([src/mcpc/helper.py]): task registry and notifier

    A shallow embedding of the class [MCPCHelper].  Python objects that the
    helper shares by reference (the per-task record dictionaries and the
    [threading.Thread] handles) live in explicit stores, so that aliasing
    between the registry and the values handed to callers is visible.
    Every method is a computation in a state-and-exception monad. *)

From stdpp Require Import gmap strings list fin_maps.
From Stdlib Require Import ZArith.

Local Open Scope string_scope.
Local Open Scope Z_scope.
Local Open Scope nat_scope.

(** ** Python values and exceptions *)

(** Addresses of dictionary objects and identities of thread objects. *)
Definition loc := nat.
Definition thread_id := nat.

(** The values that occur as fields of a task record.  A [float] is kept as
    the bit pattern of its binary64 encoding: the helper stores the clock
    reading and never computes with it. *)
Inductive value :=
  | VNone
  | VBool (b : bool)
  | VStr (s : string)
  | VFloat (bits : Z)
  | VThread (t : thread_id).

#[global] Instance value_eq_dec : EqDecision value.
Proof. solve_decision. Defined.

(** A Python [dict] with string keys. *)
Abbreviation pydict := (gmap string value).

(** Truth value of an object, as tested by [if x:].  A thread object defines
    neither [__bool__] nor [__len__] and is always true; [0.0] and [-0.0]
    are false. *)
Definition truthy (v : value) : bool :=
  match v with
  | VNone => false
  | VBool b => b
  | VStr s => negb (String.eqb s "")
  | VFloat bits => negb (Z.eqb (bits mod 2 ^ 63) 0)
  | VThread _ => true
  end.

(** A dictionary is true when it is not empty. *)
Definition dict_truthy (d : pydict) : bool := negb (bool_decide (d = ∅)).

Inductive exn_class :=
  | AttributeError
  | KeyError
  | RuntimeError
  | TypeError
  | ValueError
  | OSError
  | UnicodeEncodeError
  | ValidationError
  | KeyboardInterrupt
  | SystemExit.

#[global] Instance exn_class_eq_dec : EqDecision exn_class.
Proof. solve_decision. Defined.

Record exn := Exn { exn_cls : exn_class; exn_msg : string }.

(** [isinstance(e, Exception)]: everything but the two classes that derive
    from [BaseException] directly. *)
Definition is_Exception (e : exn) : bool :=
  match exn_cls e with
  | KeyboardInterrupt | SystemExit => false
  | _ => true
  end.

(** [str(e)], as interpolated by an f-string. *)
Definition exn_str (e : exn) : string := exn_msg e.

Inductive result (A : Type) :=
  | Ok (a : A)
  | Raise (e : exn).
Arguments Ok {A} a.
Arguments Raise {A} e.

(** ** Work functions and threads *)

(** A caller-supplied callable.  The helper only asks whether it is a
    coroutine function; its body is opaque. *)
Record Callable := {
  fn_name : string;
  iscoroutinefunction : bool
}.

(** The two closures [start_task] builds around the work function. *)
Inductive target_func :=
  | async_wrapper (worker_func : Callable) (args : list value) (kwargs : pydict)
  | sync_wrapper (worker_func : Callable) (args : list value) (kwargs : pydict).

(** A [threading.Thread] object. *)
Record Thread := {
  target : target_func;
  daemon : bool;
  started : bool
}.

Inductive log_level := INFO | ERROR.

(** ** Program state *)

Record state := {
  provider_name : string;                 (* self.provider_name *)
  background_tasks : gmap string loc;     (* self.background_tasks, by reference *)
  heap : gmap loc pydict;                 (* the dictionary objects *)
  next_loc : loc;                         (* allocation pointer of [heap] *)
  threads : gmap thread_id Thread;        (* the thread objects *)
  next_thread : thread_id;                (* allocation pointer of [threads] *)
  log : list (log_level * string);        (* records sent to [logger] *)
  stdout_buffer : string;                 (* sys.stdout: written, not yet flushed *)
  stdout_flushed : string                 (* sys.stdout: delivered to the consumer *)
}.

Definition set_background_tasks (f : gmap string loc → gmap string loc) (s : state) : state :=
  {| provider_name := provider_name s; background_tasks := f (background_tasks s);
     heap := heap s; next_loc := next_loc s;
     threads := threads s; next_thread := next_thread s; log := log s;
     stdout_buffer := stdout_buffer s; stdout_flushed := stdout_flushed s |}.

Definition set_heap (f : gmap loc pydict → gmap loc pydict) (n : loc) (s : state) : state :=
  {| provider_name := provider_name s; background_tasks := background_tasks s;
     heap := f (heap s); next_loc := n;
     threads := threads s; next_thread := next_thread s; log := log s;
     stdout_buffer := stdout_buffer s; stdout_flushed := stdout_flushed s |}.

Definition set_threads (f : gmap thread_id Thread → gmap thread_id Thread) (n : thread_id)
    (s : state) : state :=
  {| provider_name := provider_name s; background_tasks := background_tasks s;
     heap := heap s; next_loc := next_loc s;
     threads := f (threads s); next_thread := n; log := log s;
     stdout_buffer := stdout_buffer s; stdout_flushed := stdout_flushed s |}.

Definition set_log (f : list (log_level * string) → list (log_level * string)) (s : state) : state :=
  {| provider_name := provider_name s; background_tasks := background_tasks s;
     heap := heap s; next_loc := next_loc s;
     threads := threads s; next_thread := next_thread s; log := f (log s);
     stdout_buffer := stdout_buffer s; stdout_flushed := stdout_flushed s |}.

Definition set_stdout (buf out : string) (s : state) : state :=
  {| provider_name := provider_name s; background_tasks := background_tasks s;
     heap := heap s; next_loc := next_loc s;
     threads := threads s; next_thread := next_thread s; log := log s;
     stdout_buffer := buf; stdout_flushed := out |}.

(** ** The monad of methods: state passing with exceptions *)

Definition M (A : Type) : Type := state → result A * state.

#[global] Instance M_ret : MRet M := λ A a s, (Ok a, s).
#[global] Instance M_bind : MBind M := λ A B f c s,
  match c s with
  | (Ok a, s') => f a s'
  | (Raise e, s') => (Raise e, s')
  end.

Definition raise {A} (e : exn) : M A := λ s, (Raise e, s).
Definition get_state : M state := λ s, (Ok s, s).
Definition modify (f : state → state) : M unit := λ s, (Ok tt, f s).

(** [try: body except Exception as e: handler e].  An exception that is not
    an instance of [Exception] passes through. *)
Definition try_except_Exception {A} (body : M A) (handler : exn → M A) : M A := λ s,
  match body s with
  | (Ok a, s') => (Ok a, s')
  | (Raise e, s') => if is_Exception e then handler e s' else (Raise e, s')
  end.

(** ** Primitive operations on the stores *)

(** A dictionary display [{...}]: a new object at a new address. *)
Definition dict_new (d : pydict) : M loc := λ s,
  (Ok (next_loc s), set_heap <[next_loc s := d]> (S (next_loc s)) s).

(** The contents of the dictionary at [l]. *)
Definition deref (l : loc) : M pydict := λ s, (Ok (heap s !!! l), s).

(** [d[key] = v] on the dictionary object at [l]. *)
Definition dict_setitem (l : loc) (key : string) (v : value) : M unit :=
  modify (λ s, set_heap <[l := <[key := v]> (heap s !!! l)]> (next_loc s) s).

(** [d.get(key)], with [None] for a missing key. *)
Definition dict_get (d : pydict) (key : string) : value := default VNone (d !! key).

(** [threading.Thread(target=..., daemon=...)]. *)
Definition Thread_new (tgt : target_func) (dmn : bool) : M thread_id := λ s,
  (Ok (next_thread s),
   set_threads <[next_thread s := {| target := tgt; daemon := dmn; started := false |}]>
     (S (next_thread s)) s).

(** [thread.start()]; a thread can be started once. *)
Definition Thread_start (t : thread_id) : M unit := λ s,
  match threads s !! t with
  | Some th =>
      if started th then (Raise (Exn RuntimeError "threads can only be started once"), s)
      else (Ok tt, set_threads <[t := {| target := target th; daemon := daemon th;
                                         started := true |}]> (next_thread s) s)
  | None => (Raise (Exn RuntimeError "thread.__init__() not called"), s)
  end.

(** [x.is_alive()].  Only a thread object has the method.  A started thread
    is alive for as long as the scheduler says its target is still running:
    [running] is the environment's answer at the moment of the call. *)
Definition thread_alive (running : thread_id → bool) (t : thread_id) (s : state) : bool :=
  match threads s !! t with
  | Some th => started th && running t
  | None => false
  end.

Definition is_alive (running : thread_id → bool) (v : value) : M bool := λ s,
  match v with
  | VThread t => (Ok (thread_alive running t s), s)
  | _ => (Raise (Exn AttributeError "object has no attribute 'is_alive'"), s)
  end.

Definition logger_info (msg : string) : M unit := modify (set_log (λ l, (l ++ [(INFO, msg)])%list)).
Definition logger_error (msg : string) : M unit := modify (set_log (λ l, (l ++ [(ERROR, msg)])%list)).

(** ** class MCPCHelper *)

(** [__init__]: the helper with an empty registry. *)
Definition init (provider : string) : state :=
  {| provider_name := provider; background_tasks := ∅;
     heap := ∅; next_loc := 0; threads := ∅; next_thread := 0;
     log := [(INFO, "Initialized MCPC helper for provider: " +:+ provider)];
     stdout_buffer := ""; stdout_flushed := "" |}.

(** [kwargs or {}] *)
Definition kwargs_or_empty (kwargs : option pydict) : pydict :=
  match kwargs with
  | Some d => if dict_truthy d then d else ∅
  | None => ∅
  end.

(** [start_task].  [clock] is what [time.time()] reads during the call. *)
Definition start_task (task_id : string) (worker_func : Callable) (args : list value)
    (kwargs : option pydict) (clock : Z) : M unit :=
  let kwargs := kwargs_or_empty kwargs in
  let target_func :=
    if iscoroutinefunction worker_func
    then async_wrapper worker_func args kwargs
    else sync_wrapper worker_func args kwargs in
  thread ← Thread_new target_func true;
  record ← dict_new {[ "thread" := VThread thread;
                       "start_time" := VFloat clock;
                       "status" := VStr "running" ]};
  modify (set_background_tasks <[task_id := record]>);;
  Thread_start thread;;
  logger_info ("Started task " +:+ task_id).

(** [check_task].  The result is a reference: the registry's own record when
    [task_id] is known, the default [{}] built for the call otherwise. *)
Definition check_task (task_id : string) (running : thread_id → bool) : M loc :=
  dflt ← dict_new ∅;
  s ← get_state;
  let task_info := default dflt (background_tasks s !! task_id) in
  d ← deref task_info;
  (if dict_truthy d then
     let thread := dict_get d "thread" in
     if truthy thread then
       r ← is_alive running thread;
       dict_setitem task_info "is_running" (VBool r)
     else mret tt
   else mret tt);;
  mret task_info.

(** [stop_task] *)
Definition stop_task (task_id : string) : M bool :=
  s ← get_state;
  match background_tasks s !! task_id with
  | Some record =>
      dict_setitem record "status" (VStr "stopping");;
      mret true
  | None => mret false
  end.

(** [cleanup_task] *)
Definition cleanup_task (task_id : string) : M unit :=
  s ← get_state;
  if bool_decide (is_Some (background_tasks s !! task_id)) then
    modify (set_background_tasks (delete task_id));;
    logger_info ("Cleaned up task " +:+ task_id)
  else mret tt.

(** ** Observations of the registry *)

(** The record the registry holds for [task_id], read through the
    reference. *)
Definition record_of (s : state) (task_id : string) : option pydict :=
  (λ l, heap s !!! l) <$> background_tasks s !! task_id.

(** One field of that record. *)
Definition field_of (s : state) (task_id key : string) : option value :=
  record_of s task_id ≫= (λ d, d !! key).

(** What a caller holding the reference [l] does with [l[key] = v]. *)
Definition caller_setitem (l : loc) (key : string) (v : value) (s : state) : state :=
  (dict_setitem l key v s).2.

(** ** Calls of the registry operations and the states they reach *)

Inductive call :=
  | CallStart (task_id : string) (worker_func : Callable) (args : list value)
      (kwargs : option pydict) (clock : Z)
  | CallCheck (task_id : string) (running : thread_id → bool)
  | CallStop (task_id : string)
  | CallCleanup (task_id : string).

(** The state a call leaves behind, whether it returns or raises. *)
Definition exec (c : call) (s : state) : state :=
  match c with
  | CallStart task_id worker_func args kwargs clock =>
      (start_task task_id worker_func args kwargs clock s).2
  | CallCheck task_id running => (check_task task_id running s).2
  | CallStop task_id => (stop_task task_id s).2
  | CallCleanup task_id => (cleanup_task task_id s).2
  end.

Definition run_calls (cs : list call) (s : state) : state := foldl (λ s c, exec c s) s cs.

Inductive reachable : state → Prop :=
  | reachable_init (provider : string) : reachable (init provider)
  | reachable_step (s : state) (c : call) : reachable s → reachable (exec c s).

(** [c] is a [start_task] for [task_id]. *)
Definition starts (task_id : string) (c : call) : bool :=
  match c with
  | CallStart task_id' _ _ _ _ => bool_decide (task_id' = task_id)
  | _ => false
  end.

(** The shape of a record the registry holds. *)
Definition record_ok (s : state) (d : pydict) : Prop :=
  ∃ t th, d !! "thread" = Some (VThread t)
          ∧ threads s !! t = Some th ∧ started th = true
          ∧ (d !! "status" = Some (VStr "running") ∨ d !! "status" = Some (VStr "stopping")).

(** The registry refers to allocated dictionaries, no two task ids share a
    dictionary, and every record has its handle and a status. *)
Record wf (s : state) : Prop := {
  wf_alloc : ∀ task_id l, background_tasks s !! task_id = Some l → l < next_loc s;
  wf_inj : ∀ id1 id2 l,
    background_tasks s !! id1 = Some l → background_tasks s !! id2 = Some l → id1 = id2;
  wf_record : ∀ task_id l, background_tasks s !! task_id = Some l → record_ok s (heap s !!! l)
}.

(** ** Notifier *)

(** A JSON-serializable payload, the [Any] of [create_message]. *)
#[warnings="-register-all"]
Inductive json :=
  | JNull
  | JBool (b : bool)
  | JNum (n : Z)
  | JStr (s : string)
  | JArr (items : list json)
  | JObj (members : list (string * json)).

(** Modelled from the spec: the classes [MCPCMessage] and [MCPCInformation]
    are declared in the package's [__init__.py], which is not among the
    sources.  The spec gives the status message the fields [session_id],
    [task_id], [tool_name], [result] (arbitrary payload, may be absent) and
    [status] (one of [task_created], [task_update], [task_complete],
    [task_failed]), its JSON shape [{session_id, task_id, tool_name, result,
    status}], and the protocol information the shape [{mcpc_provider}]. *)
Module MCPCMessage.
Inductive status_t := task_created | task_update | task_complete | task_failed.

Record t := {
  session_id : string;
  task_id : string;
  tool_name : string;
  result : json;
  status : status_t
}.

Definition status_str (st : status_t) : string :=
  match st with
  | task_created => "task_created"
  | task_update => "task_update"
  | task_complete => "task_complete"
  | task_failed => "task_failed"
  end.

(** The members of the message's JSON object. *)
Definition model_dump (m : t) : list (string * json) :=
  [("session_id", JStr (session_id m));
   ("task_id", JStr (task_id m));
   ("tool_name", JStr (tool_name m));
   ("result", result m);
   ("status", JStr (status_str (status m)))].
End MCPCMessage.

Module MCPCInformation.
Record t := { mcpc_provider : string }.
End MCPCInformation.

(** [create_message].  The parameters [result] and [status] have defaults
    ([None] and ["task_update"]); [None] stands for an omitted argument. *)
Definition create_message (tool_name session_id task_id : string)
    (result : option json) (status : option MCPCMessage.status_t) : M MCPCMessage.t :=
  mret {| MCPCMessage.session_id := session_id;
          MCPCMessage.task_id := task_id;
          MCPCMessage.tool_name := tool_name;
          MCPCMessage.result := default JNull result;
          MCPCMessage.status := default MCPCMessage.task_update status |}.

(** [get_protocol_info] *)
Definition get_protocol_info : M MCPCInformation.t :=
  s ← get_state;
  mret {| MCPCInformation.mcpc_provider := provider_name s |}.

(** The line terminator ["\n"]. *)
Definition newline : string := String (Ascii.ascii_of_nat 10) "".

(** [sys.stdout.write(data)].  Whether the stream refuses the write is the
    environment's choice, [fault]; a refused write adds nothing. *)
Definition stdout_write (fault : option exn) (data : string) : M nat := λ s,
  match fault with
  | Some e => (Raise e, s)
  | None => (Ok (String.length data), set_stdout (stdout_buffer s +:+ data) (stdout_flushed s) s)
  end.

(** [sys.stdout.flush()].  A failed flush leaves the data in the buffer. *)
Definition stdout_flush (fault : option exn) : M unit := λ s,
  match fault with
  | Some e => (Raise e, s)
  | None => (Ok tt, set_stdout "" (stdout_flushed s +:+ stdout_buffer s) s)
  end.

(** What the transport does during one [send_direct]. *)
Record io_faults := {
  write_fault : option exn;
  flush_fault : option exn
}.

(** A computation without effect on the state that returns or raises. *)
Definition lift {A} (r : result A) : M A := λ s, (r, s).

(** The dictionary [{"content": [...], "isError": ...}] handed to
    [JSONRPCResponse]. *)
Record tool_result (TextContent : Type) := {
  content : list TextContent;
  isError : bool
}.
Arguments content {TextContent} _.
Arguments isError {TextContent} _.

Section send.
(** The envelope classes of [mcp.types], a library outside the repository:
    their constructors validate and may raise, as may serialization. *)
Context {TextContent JSONRPCResponse JSONRPCMessage : Type}.
Variable mk_TextContent : string → string → result TextContent.
Variable mk_JSONRPCResponse :
  string → string → tool_result TextContent → result JSONRPCResponse.
Variable mk_JSONRPCMessage : JSONRPCResponse → result JSONRPCMessage.
Variable model_dump_json : JSONRPCMessage → result string.

(** The statements of the [try] block up to the serialized text. *)
Definition serialize_envelope (message : string) : M string :=
  text_content ← lift (mk_TextContent message "text");
  let mcpc_message := {| content := [text_content]; isError := false |} in
  jsonrpc_response ← lift (mk_JSONRPCResponse "2.0" "MCPC_CALLBACK" mcpc_message);
  json_message ← lift (mk_JSONRPCMessage jsonrpc_response);
  lift (model_dump_json json_message).

(** [send_direct].  The coroutine has no [await] in its body: once driven
    it runs to its [return] without suspending. *)
Definition send_direct (message : string) (io : io_faults) : M bool :=
  try_except_Exception
    (serialized ← serialize_envelope message;
     stdout_write (write_fault io) (serialized +:+ newline);;
     stdout_flush (flush_fault io);;
     logger_info ("Sent direct message: " +:+ String.substring 0 100 serialized +:+ "...");;
     mret true)
    (λ e,
     logger_error ("Error sending direct message: " +:+ exn_str e);;
     mret false).
End send.

(** ** Auxiliary notions for the statements *)

(** The record [start_task] stores for the handle [t] at clock reading
    [clock]. *)
Definition new_record (t : thread_id) (clock : Z) : pydict :=
  {[ "thread" := VThread t; "start_time" := VFloat clock; "status" := VStr "running" ]}.

(** The closure [start_task] hands to the thread. *)
Definition wrap (worker_func : Callable) (args : list value) (kwargs : option pydict) :
    target_func :=
  if iscoroutinefunction worker_func
  then async_wrapper worker_func args (kwargs_or_empty kwargs)
  else sync_wrapper worker_func args (kwargs_or_empty kwargs).

(** The thread object of a task that has been launched. *)
Definition launched (tgt : target_func) : Thread :=
  {| target := tgt; daemon := true; started := true |}.

(** ** Concrete inputs for the examples *)

Definition sync_job : Callable := {| fn_name := "job"; iscoroutinefunction := false |}.
Definition async_job : Callable := {| fn_name := "fetch"; iscoroutinefunction := true |}.

Definition always_running : thread_id → bool := λ _, true.
Definition never_running : thread_id → bool := λ _, false.

(** A helper on which [start_task("t1", job)] has been called once. *)
Definition demo_started : state :=
  exec (CallStart "t1" sync_job [] None 1700000000%Z) (init "demo").

(** A second task next to the first. *)
Definition demo_two : state :=
  exec (CallStart "t2" async_job [VStr "url"] None 1700000001%Z) demo_started.

(** A stand-in for the envelope classes: text content is its text, the
    response is its three arguments, and the dump joins them. *)
Definition demo_TextContent (text type : string) : result string := Ok text.
Definition demo_JSONRPCResponse (jsonrpc id : string) (r : tool_result string) :
    result (string * string * list string) := Ok (jsonrpc, id, content r).
Definition demo_JSONRPCMessage (r : string * string * list string) :
    result (string * string * list string) := Ok r.
Definition demo_model_dump_json (m : string * string * list string) : result string :=
  Ok (m.1.1 +:+ "|" +:+ m.1.2 +:+ "|" +:+ String.concat "," m.2).

(** A stream whose reader has gone away: the write is refused. *)
Definition broken_pipe : io_faults :=
  {| write_fault := Some (Exn OSError "Broken pipe"); flush_fault := None |}.

(** A dump that rejects every message. *)
Definition failing_model_dump_json (m : string * string * list string) : result string :=
  Raise (Exn ValidationError "not serializable").

(** ** The body of a task's thread *)

(** An [asyncio] event loop object. *)
Record event_loop := {
  loop_closed : bool
}.

(** What a running thread sees of [asyncio]: the loop objects and the loop
    installed as the thread's current one. *)
Record thread_env := {
  loops : gmap nat event_loop;
  next_loop : nat;
  current_loop : option nat
}.

Definition T (A : Type) : Type := thread_env → result A * thread_env.

#[global] Instance T_ret : MRet T := λ A a e, (Ok a, e).
#[global] Instance T_bind : MBind T := λ A B f c e,
  match c e with
  | (Ok a, e') => f a e'
  | (Raise x, e') => (Raise x, e')
  end.

(** [try: body finally: cleanup].  The cleanup runs on every exit of the
    body; the body's exception, of whatever class, is raised again after it. *)
Definition try_finally {A} (body : T A) (cleanup : T unit) : T A := λ e,
  match body e with
  | (r, e1) =>
      match cleanup e1 with
      | (Ok _, e2) => (r, e2)
      | (Raise x, e2) => (Raise x, e2)
      end
  end.

(** [asyncio.new_event_loop()] *)
Definition new_event_loop : T nat := λ e,
  (Ok (next_loop e),
   {| loops := <[next_loop e := {| loop_closed := false |}]> (loops e);
      next_loop := S (next_loop e);
      current_loop := current_loop e |}).

(** [asyncio.set_event_loop(loop)] *)
Definition set_event_loop (loop : nat) : T unit := λ e,
  (Ok tt, {| loops := loops e; next_loop := next_loop e; current_loop := Some loop |}).

(** [loop.run_until_complete(coro)]: a closed loop refuses; otherwise the
    result is whatever driving the coroutine gives, [outcome]. *)
Definition run_until_complete (loop : nat) (outcome : result value) : T value := λ e,
  match loops e !! loop with
  | Some lp =>
      if loop_closed lp then (Raise (Exn RuntimeError "Event loop is closed"), e)
      else (outcome, e)
  | None => (Raise (Exn RuntimeError "Event loop is closed"), e)
  end.

(** [loop.close()] *)
Definition loop_close (loop : nat) : T unit := λ e,
  (Ok tt, {| loops := <[loop := {| loop_closed := true |}]> (loops e);
             next_loop := next_loop e;
             current_loop := current_loop e |}).

(** What the thread executes.  [work f args kwargs] is the outcome of the
    caller's function on its arguments: for a plain function the outcome of
    the call, for a coroutine function that of driving its coroutine. *)
Definition run_target (work : Callable → list value → pydict → result value)
    (tgt : target_func) : T value :=
  match tgt with
  | async_wrapper worker_func args kwargs =>
      loop ← new_event_loop;
      set_event_loop loop;;
      try_finally
        (run_until_complete loop (work worker_func args kwargs))
        (loop_close loop);;
      mret VNone
  | sync_wrapper worker_func args kwargs =>
      λ e, (work worker_func args kwargs, e)
  end.

(** ** Further notions for the statements *)

(** Every thread object the helper has created is a started daemon thread
    below the allocation pointer. *)
Definition threads_ok (s : state) : Prop :=
  ∀ t th, threads s !! t = Some th →
          t < next_thread s ∧ started th = true ∧ daemon th = true.

(** The records a call sends to the logger on the state [s]. *)
Definition logged (c : call) (s : state) : list (log_level * string) :=
  match c with
  | CallStart task_id _ _ _ _ => [(INFO, "Started task " +:+ task_id)]
  | CallCleanup task_id =>
      if bool_decide (is_Some (background_tasks s !! task_id))
      then [(INFO, "Cleaned up task " +:+ task_id)]
      else []
  | CallCheck _ _ | CallStop _ => []
  end.

(** The task ids a call leaves in the registry. *)
Definition keys_after (c : call) (keys : gset string) : gset string :=
  match c with
  | CallStart task_id _ _ _ _ => {[task_id]} ∪ keys
  | CallCleanup task_id => keys ∖ {[task_id]}
  | CallCheck _ _ | CallStop _ => keys
  end.

(** The helper of [demo_started] after a caller, holding the dictionary
    returned by [check_task], has overwritten its handle with a string. *)
Definition demo_tampered : state := caller_setitem 0 "thread" (VStr "gone") demo_started.

(** The same after the caller has set the handle to [None]. *)
Definition demo_detached : state := caller_setitem 0 "thread" VNone demo_started.

(** A stream on which the user's interrupt arrives during the flush. *)
Definition interrupted : io_faults :=
  {| write_fault := None; flush_fault := Some (Exn KeyboardInterrupt "") |}.

(** An empty thread environment. *)
Definition fresh_env : thread_env := {| loops := ∅; next_loop := 0; current_loop := None |}.

(** A work function that returns a string, and one that fails. *)
Definition demo_work (f : Callable) (args : list value) (kwargs : pydict) : result value :=
  Ok (VStr "done").
Definition failing_work (f : Callable) (args : list value) (kwargs : pydict) : result value :=
  Raise (Exn ValueError "boom").

(** * Properties *)

(** ** The operations in closed form *)

Lemma state_eq (s1 s2 : state) :
  provider_name s1 = provider_name s2 →
  background_tasks s1 = background_tasks s2 →
  heap s1 = heap s2 → next_loc s1 = next_loc s2 →
  threads s1 = threads s2 → next_thread s1 = next_thread s2 →
  log s1 = log s2 →
  stdout_buffer s1 = stdout_buffer s2 → stdout_flushed s1 = stdout_flushed s2 →
  s1 = s2.
Proof. destruct s1, s2; simpl; intros; subst; reflexivity. Qed.

Lemma start_task_eq task_id worker_func args kwargs clock s :
  ∃ s', start_task task_id worker_func args kwargs clock s = (Ok tt, s')
    ∧ provider_name s' = provider_name s
    ∧ background_tasks s' = <[task_id := next_loc s]> (background_tasks s)
    ∧ heap s' = <[next_loc s := new_record (next_thread s) clock]> (heap s)
    ∧ next_loc s' = S (next_loc s)
    ∧ threads s' = <[next_thread s := launched (wrap worker_func args kwargs)]> (threads s)
    ∧ next_thread s' = S (next_thread s)
    ∧ log s' = (log s ++ [(INFO, "Started task " +:+ task_id)])%list
    ∧ stdout_buffer s' = stdout_buffer s ∧ stdout_flushed s' = stdout_flushed s.
Proof.
  unfold start_task, mbind, M_bind, Thread_new, dict_new, modify, Thread_start, logger_info.
  cbn [threads set_threads set_heap set_background_tasks next_thread].
  rewrite lookup_insert_eq. cbn [started target daemon].
  eexists; split; [reflexivity|].
  cbn. repeat split; try reflexivity.
  rewrite insert_insert_eq. reflexivity.
Qed.

Lemma stop_task_present task_id l s :
  background_tasks s !! task_id = Some l →
  stop_task task_id s =
    (Ok true, set_heap <[l := <["status" := VStr "stopping"]> (heap s !!! l)]> (next_loc s) s).
Proof.
  intros Hl. unfold stop_task, mbind, M_bind, get_state. rewrite Hl. reflexivity.
Qed.

Lemma stop_task_absent task_id s :
  background_tasks s !! task_id = None → stop_task task_id s = (Ok false, s).
Proof.
  intros Hl. unfold stop_task, mbind, M_bind, get_state. rewrite Hl. reflexivity.
Qed.

Lemma cleanup_task_present task_id s :
  is_Some (background_tasks s !! task_id) →
  cleanup_task task_id s =
    (Ok tt, set_log (λ l, (l ++ [(INFO, "Cleaned up task " +:+ task_id)])%list)
              (set_background_tasks (delete task_id) s)).
Proof.
  intros Hl. unfold cleanup_task, mbind, M_bind, get_state.
  rewrite bool_decide_eq_true_2 by done. reflexivity.
Qed.

Lemma cleanup_task_absent task_id s :
  background_tasks s !! task_id = None → cleanup_task task_id s = (Ok tt, s).
Proof.
  intros Hl. unfold cleanup_task, mbind, M_bind, get_state.
  rewrite bool_decide_eq_false_2; [reflexivity|]. rewrite Hl. intros [? ?]; discriminate.
Qed.

Lemma check_task_absent task_id running s :
  background_tasks s !! task_id = None →
  check_task task_id running s = (Ok (next_loc s), set_heap <[next_loc s := ∅]> (S (next_loc s)) s).
Proof.
  intros Hl. unfold check_task, mbind, M_bind, dict_new, get_state, deref.
  cbn [background_tasks set_heap heap]. rewrite Hl. cbn [default].
  rewrite lookup_total_insert_eq. reflexivity.
Qed.

Lemma check_task_present task_id running l t s :
  background_tasks s !! task_id = Some l →
  l ≠ next_loc s →
  (heap s !!! l) !! "thread" = Some (VThread t) →
  check_task task_id running s =
    (Ok l,
     set_heap (λ h, <[l := <["is_running" := VBool (thread_alive running t s)]> (heap s !!! l)]>
                      (<[next_loc s := ∅]> h))
       (S (next_loc s)) s).
Proof.
  intros Hl Hne Ht. unfold check_task, mbind, M_bind, dict_new, get_state, deref.
  cbn [background_tasks set_heap heap]. rewrite Hl. cbn [default from_option id].
  rewrite lookup_total_insert_ne by done.
  assert (Hd : dict_truthy (heap s !!! l) = true).
  { unfold dict_truthy. rewrite bool_decide_eq_false_2; [done|].
    intros He. rewrite He, lookup_empty in Ht. discriminate. }
  rewrite Hd. unfold dict_get. rewrite Ht. cbn [default from_option id truthy is_alive].
  unfold dict_setitem, modify. cbn [heap set_heap next_loc].
  rewrite lookup_total_insert_ne by done.
  f_equal.
Qed.

(** ** The registry invariant *)

Lemma wf_init provider : wf (init provider).
Proof.
  split; cbn; intros *; rewrite lookup_empty; discriminate.
Qed.

Lemma record_ok_threads s s' d :
  (∀ t th, threads s !! t = Some th → started th = true →
           ∃ th', threads s' !! t = Some th' ∧ started th' = true) →
  record_ok s d → record_ok s' d.
Proof.
  intros Hth (t & th & Ht & Hlk & Hst & Hstatus).
  destruct (Hth t th Hlk Hst) as (th' & Hlk' & Hst').
  exists t, th'. done.
Qed.

Lemma wf_start_task task_id worker_func args kwargs clock s :
  wf s → wf (start_task task_id worker_func args kwargs clock s).2.
Proof.
  intros [Ha Hi Hr].
  destruct (start_task_eq task_id worker_func args kwargs clock s)
    as (s' & -> & _ & Hbt & Hh & Hn & Hth & _).
  cbn [snd]. split.
  - intros id l. rewrite Hbt, Hn, lookup_insert. case_decide.
    + intros [= <-]. lia.
    + intros Hl. apply Ha in Hl. lia.
  - intros id1 id2 l. rewrite Hbt, !lookup_insert.
    repeat case_decide; subst; try done.
    + intros [= <-] Hl. apply Ha in Hl. lia.
    + intros Hl [= <-]. apply Ha in Hl. lia.
    + apply Hi.
  - intros id l. rewrite Hbt, Hh, lookup_insert. case_decide.
    + intros [= <-]. rewrite lookup_total_insert_eq.
      exists (next_thread s), (launched (wrap worker_func args kwargs)).
      rewrite Hth, lookup_insert_eq. unfold new_record. repeat split; try done. by left.
    + intros Hl. assert (l ≠ next_loc s) by (apply Ha in Hl; lia).
      rewrite lookup_total_insert_ne by done.
      apply (record_ok_threads s); [|by eapply Hr].
      intros t th Hlk Hst. rewrite Hth, lookup_insert. case_decide.
      * eexists; split; [reflexivity|done].
      * eauto.
Qed.

Lemma record_ok_set_other s s' d key v :
  threads s' = threads s → key ≠ "thread" →
  (key = "status" → v = VStr "running" ∨ v = VStr "stopping") →
  record_ok s d → record_ok s' (<[key := v]> d).
Proof.
  intros Hth Hk Hv (t & th & Ht & Hlk & Hst & Hstatus).
  exists t, th. rewrite Hth. repeat split; try done.
  - by rewrite lookup_insert_ne.
  - destruct (decide (key = "status")) as [->|Hne].
    + rewrite lookup_insert_eq. destruct (Hv eq_refl) as [-> | ->]; auto.
    + by rewrite !lookup_insert_ne.
Qed.

Lemma wf_check_task task_id running s : wf s → wf (check_task task_id running s).2.
Proof.
  intros Hwf. pose proof Hwf as [Ha Hi Hr].
  destruct (background_tasks s !! task_id) as [l|] eqn:Hl.
  - destruct (Hr _ _ Hl) as (t & th & Ht & _).
    assert (l ≠ next_loc s) by (apply Ha in Hl; lia).
    rewrite (check_task_present _ _ l t) by done. cbn [snd]. split; cbn.
    + intros id l' Hl'. apply Ha in Hl'. lia.
    + apply Hi.
    + intros id l' Hl'. assert (l' ≠ next_loc s) by (apply Ha in Hl'; lia).
      destruct (decide (l' = l)) as [->|Hne].
      * rewrite lookup_total_insert_eq.
        apply (record_ok_set_other s); [done..|]. by eapply Hr.
      * rewrite !lookup_total_insert_ne by done.
        apply (record_ok_threads s); [eauto|]. by eapply Hr.
  - rewrite check_task_absent by done. cbn [snd]. split; cbn.
    + intros id l' Hl'. apply Ha in Hl'. lia.
    + apply Hi.
    + intros id l' Hl'. assert (l' ≠ next_loc s) by (apply Ha in Hl'; lia).
      rewrite lookup_total_insert_ne by done.
      apply (record_ok_threads s); [eauto|]. by eapply Hr.
Qed.

Lemma wf_stop_task task_id s : wf s → wf (stop_task task_id s).2.
Proof.
  intros Hwf. pose proof Hwf as [Ha Hi Hr].
  destruct (background_tasks s !! task_id) as [l|] eqn:Hl.
  - rewrite (stop_task_present _ l) by done. cbn [snd]. split; cbn.
    + apply Ha.
    + apply Hi.
    + intros id l' Hl'. destruct (decide (l' = l)) as [->|Hne].
      * rewrite lookup_total_insert_eq.
        apply (record_ok_set_other s); [done..|auto|]. by eapply Hr.
      * rewrite lookup_total_insert_ne by done.
        apply (record_ok_threads s); [eauto|]. by eapply Hr.
  - by rewrite stop_task_absent.
Qed.

Lemma wf_cleanup_task task_id s : wf s → wf (cleanup_task task_id s).2.
Proof.
  intros Hwf. pose proof Hwf as [Ha Hi Hr].
  destruct (background_tasks s !! task_id) as [l|] eqn:Hl.
  - rewrite cleanup_task_present by (rewrite Hl; eauto). cbn [snd]. split; cbn.
    + intros id l' [_ Hl']%lookup_delete_Some. by eapply Ha.
    + intros id1 id2 l' [_ H1]%lookup_delete_Some [_ H2]%lookup_delete_Some. by eapply Hi.
    + intros id l' [_ Hl']%lookup_delete_Some.
      apply (record_ok_threads s); [eauto|]. by eapply Hr.
  - by rewrite cleanup_task_absent.
Qed.

Lemma wf_exec c s : wf s → wf (exec c s).
Proof.
  destruct c; cbn [exec];
    auto using wf_start_task, wf_check_task, wf_stop_task, wf_cleanup_task.
Qed.

Lemma reachable_wf s : reachable s → wf s.
Proof. induction 1; auto using wf_init, wf_exec. Qed.

Lemma reachable_run_calls cs s : reachable s → reachable (run_calls cs s).
Proof.
  revert s. induction cs as [|c cs IH]; intros s Hs; cbn; [done|].
  apply IH. by constructor.
Qed.

(** ** How each operation changes the records *)

Lemma record_of_Some s task_id l :
  background_tasks s !! task_id = Some l → record_of s task_id = Some (heap s !!! l).
Proof. intros Hl. unfold record_of. by rewrite Hl. Qed.

Lemma record_of_None s task_id :
  background_tasks s !! task_id = None → record_of s task_id = None.
Proof. intros Hl. unfold record_of. by rewrite Hl. Qed.

Lemma start_task_record_same task_id worker_func args kwargs clock s :
  record_of (start_task task_id worker_func args kwargs clock s).2 task_id
  = Some (new_record (next_thread s) clock).
Proof.
  destruct (start_task_eq task_id worker_func args kwargs clock s)
    as (s' & -> & _ & Hbt & Hh & _).
  cbn [snd]. unfold record_of. rewrite Hbt, Hh, lookup_insert_eq. cbn.
  by rewrite lookup_total_insert_eq.
Qed.

Lemma start_task_record_other task_id worker_func args kwargs clock s id :
  wf s → id ≠ task_id →
  record_of (start_task task_id worker_func args kwargs clock s).2 id = record_of s id.
Proof.
  intros [Ha _ _] Hne.
  destruct (start_task_eq task_id worker_func args kwargs clock s)
    as (s' & -> & _ & Hbt & Hh & _).
  cbn [snd]. unfold record_of. rewrite Hbt, Hh, lookup_insert_ne by done.
  destruct (background_tasks s !! id) as [l|] eqn:Hl; [|done]. cbn.
  apply Ha in Hl. rewrite lookup_total_insert_ne by lia. done.
Qed.

Lemma check_task_record_other task_id running s id :
  wf s → id ≠ task_id → record_of (check_task task_id running s).2 id = record_of s id.
Proof.
  intros [Ha Hi Hr] Hne.
  destruct (background_tasks s !! id) as [l'|] eqn:Hl'.
  - assert (l' ≠ next_loc s) by (apply Ha in Hl'; lia).
    destruct (background_tasks s !! task_id) as [l|] eqn:Hl.
    + destruct (Hr _ _ Hl) as (t & th & Ht & _).
      assert (l ≠ next_loc s) by (apply Ha in Hl; lia).
      assert (l' ≠ l) by (intros ->; apply Hne; by eapply Hi).
      rewrite (check_task_present _ _ l t) by done. cbn [snd].
      unfold record_of; cbn. rewrite Hl'. cbn.
      by rewrite !lookup_total_insert_ne by done.
    + rewrite check_task_absent by done. unfold record_of; cbn. rewrite Hl'. cbn.
      by rewrite lookup_total_insert_ne by done.
  - destruct (background_tasks s !! task_id) as [l|] eqn:Hl.
    + destruct (Hr _ _ Hl) as (t & th & Ht & _).
      assert (l ≠ next_loc s) by (apply Ha in Hl; lia).
      rewrite (check_task_present _ _ l t) by done.
      unfold record_of; cbn. by rewrite Hl'.
    + rewrite check_task_absent by done. unfold record_of; cbn. by rewrite Hl'.
Qed.

Lemma check_task_record_same task_id running s l :
  wf s → background_tasks s !! task_id = Some l →
  ∃ t, (heap s !!! l) !! "thread" = Some (VThread t)
    ∧ check_task task_id running s
      = (Ok l,
         set_heap (λ h, <[l := <["is_running" := VBool (running t)]> (heap s !!! l)]>
                          (<[next_loc s := ∅]> h))
           (S (next_loc s)) s).
Proof.
  intros [Ha Hi Hr] Hl.
  destruct (Hr _ _ Hl) as (t & th & Ht & Hlk & Hst & _).
  assert (l ≠ next_loc s) by (apply Ha in Hl; lia).
  exists t. split; [done|].
  rewrite (check_task_present _ _ l t) by done.
  unfold thread_alive. by rewrite Hlk, Hst.
Qed.

Lemma stop_task_record_other task_id s id :
  wf s → id ≠ task_id → record_of (stop_task task_id s).2 id = record_of s id.
Proof.
  intros [Ha Hi Hr] Hne.
  destruct (background_tasks s !! task_id) as [l|] eqn:Hl.
  - rewrite (stop_task_present _ l) by done. unfold record_of; cbn.
    destruct (background_tasks s !! id) as [l'|] eqn:Hl'; [|done]. cbn.
    assert (l' ≠ l) by (intros ->; apply Hne; by eapply Hi).
    by rewrite lookup_total_insert_ne by done.
  - by rewrite stop_task_absent.
Qed.

Lemma cleanup_task_record task_id s id :
  record_of (cleanup_task task_id s).2 id
  = if decide (id = task_id) then None else record_of s id.
Proof.
  destruct (background_tasks s !! task_id) as [l|] eqn:Hl.
  - rewrite cleanup_task_present by (rewrite Hl; eauto).
    unfold record_of; cbn. case_decide as Hid.
    + subst. by rewrite lookup_delete_eq.
    + by rewrite lookup_delete_ne.
  - rewrite cleanup_task_absent by done. case_decide as Hid; [|done].
    subst. by apply record_of_None.
Qed.

(** ** check_task *)

(** C1, as stated, fails.  On the helper with the single task ["t1"],
    [check_task("t1")] returns the registry's own dictionary: the call adds
    the entry [is_running] to the stored record, and an assignment through
    the returned reference shows up in the registry. *)
Lemma check_task_snapshot_counterexample :
  reachable demo_started
  ∧ ∃ l s', check_task "t1" always_running demo_started = (Ok l, s')
      ∧ record_of s' "t1" ≠ record_of demo_started "t1"
      ∧ record_of (caller_setitem l "status" (VStr "done") s') "t1" ≠ record_of s' "t1".
Proof.
  split; [unfold demo_started; constructor; constructor|].
  eexists _, _. split; [vm_compute; reflexivity|]. split.
  - intros H. apply (f_equal (λ o, o ≫= (λ d : pydict, d !! "is_running"))) in H.
    vm_compute in H. discriminate.
  - intros H. apply (f_equal (λ o, o ≫= (λ d : pydict, d !! "status"))) in H.
    vm_compute in H. discriminate.
Qed.

(** C1, amended.  For a task id present in a reachable registry,
    [check_task] returns the reference the registry itself holds, after
    storing under [is_running] the liveness of the record's handle as polled
    during the call.  The registry's keys, the other entries of that record
    and all other records stay as they were; an assignment through the
    returned reference is an assignment to the registry's record. *)
Theorem check_task_returns_live_record s task_id running l :
  reachable s →
  background_tasks s !! task_id = Some l →
  ∃ t s', check_task task_id running s = (Ok l, s')
    ∧ (heap s !!! l) !! "thread" = Some (VThread t)
    ∧ background_tasks s' = background_tasks s
    ∧ record_of s' task_id = Some (<["is_running" := VBool (running t)]> (heap s !!! l))
    ∧ (∀ id, id ≠ task_id → record_of s' id = record_of s id)
    ∧ (∀ key v, record_of (caller_setitem l key v s') task_id
                = (<[key := v]>) <$> record_of s' task_id).
Proof.
  intros Hwf%reachable_wf Hl.
  destruct (check_task_record_same task_id running s l Hwf Hl) as (t & Ht & Heq).
  exists t. eexists. split; [exact Heq|]. split; [done|]. split; [done|].
  split; [|split].
  - unfold record_of; cbn. rewrite Hl. cbn. by rewrite lookup_total_insert_eq.
  - intros id Hne. rewrite <- (check_task_record_other task_id running s id) by done.
    by rewrite Heq.
  - intros key v. unfold record_of, caller_setitem, dict_setitem, modify; cbn.
    rewrite Hl. cbn. by rewrite !lookup_total_insert_eq.
Qed.

Lemma check_task_returns_live_record_witness :
  reachable demo_started
  ∧ background_tasks demo_started !! "t1" = Some 0
  ∧ ∃ t s', check_task "t1" never_running demo_started = (Ok 0, s')
    ∧ (heap demo_started !!! 0) !! "thread" = Some (VThread t)
    ∧ background_tasks s' = background_tasks demo_started
    ∧ record_of s' "t1"
      = Some (<["is_running" := VBool (never_running t)]> (heap demo_started !!! 0))
    ∧ (∀ id, id ≠ "t1" → record_of s' id = record_of demo_started id)
    ∧ (∀ key v, record_of (caller_setitem 0 key v s') "t1"
                = (<[key := v]>) <$> record_of s' "t1").
Proof.
  assert (Hr : reachable demo_started) by (unfold demo_started; constructor; constructor).
  assert (Hl : background_tasks demo_started !! "t1" = Some 0) by (vm_compute; reflexivity).
  split; [exact Hr|]. split; [exact Hl|].
  exact (check_task_returns_live_record demo_started "t1" never_running 0 Hr Hl).
Defined.

(** ** The status field *)

Lemma field_of_record s task_id key d :
  record_of s task_id = Some d → field_of s task_id key = d !! key.
Proof. intros Hd. unfold field_of. by rewrite Hd. Qed.

Lemma check_task_field task_id running s id key :
  wf s → key ≠ "is_running" →
  field_of (check_task task_id running s).2 id key = field_of s id key.
Proof.
  intros Hwf Hkey. destruct (decide (id = task_id)) as [->|Hne].
  - destruct (background_tasks s !! task_id) as [l|] eqn:Hl.
    + destruct (check_task_record_same task_id running s l Hwf Hl) as (t & _ & ->).
      unfold field_of, record_of; cbn. rewrite Hl. cbn.
      by rewrite lookup_total_insert_eq, lookup_insert_ne.
    + rewrite check_task_absent by done. unfold field_of, record_of; cbn. by rewrite Hl.
  - unfold field_of. by rewrite check_task_record_other.
Qed.

Lemma stop_task_field_same task_id l s :
  background_tasks s !! task_id = Some l →
  field_of (stop_task task_id s).2 task_id "status" = Some (VStr "stopping").
Proof.
  intros Hl. rewrite (stop_task_present _ l) by done.
  unfold field_of, record_of; cbn. rewrite Hl. cbn.
  by rewrite lookup_total_insert_eq, lookup_insert_eq.
Qed.

Lemma exec_status_written s c task_id v :
  wf s →
  field_of (exec c s) task_id "status" = Some v →
  field_of s task_id "status" ≠ Some v →
  (starts task_id c = true ∧ v = VStr "running")
  ∨ (c = CallStop task_id ∧ v = VStr "stopping").
Proof.
  intros Hwf Hnew Hold. destruct c as [id w a k clk | id running | id | id]; cbn [exec] in Hnew.
  - destruct (decide (id = task_id)) as [->|Hne].
    + left. split; [cbn; by apply bool_decide_eq_true_2|].
      rewrite (field_of_record _ _ _ _ (start_task_record_same _ _ _ _ _ _)) in Hnew.
      unfold new_record in Hnew. simplify_map_eq. done.
    + unfold field_of in Hnew, Hold. rewrite start_task_record_other in Hnew by done. done.
  - rewrite check_task_field in Hnew by done. done.
  - destruct (decide (id = task_id)) as [->|Hne].
    + destruct (background_tasks s !! task_id) as [l|] eqn:Hl.
      * right. rewrite (stop_task_field_same _ l) in Hnew by done. by injection Hnew as <-.
      * rewrite stop_task_absent in Hnew by done. done.
    + unfold field_of in Hnew, Hold. rewrite stop_task_record_other in Hnew by done. done.
  - unfold field_of in Hnew, Hold. rewrite cleanup_task_record in Hnew.
    case_decide; [discriminate|done].
Qed.

(** C2.  In a state reached from a new helper by [start_task], [check_task],
    [stop_task] and [cleanup_task], every registered task id has a record
    whose [thread] entry is a thread object and whose [status] is ["running"]
    or ["stopping"].  A call that leaves a status value that was not there
    before is a [start_task] of that id leaving ["running"] or a [stop_task] of
    that id leaving ["stopping"]; polling with [check_task], whatever the
    liveness of the threads at that moment, leaves every status as it was. *)
Theorem registry_invariant s :
  reachable s →
  (∀ task_id l, background_tasks s !! task_id = Some l →
     (∃ t, field_of s task_id "thread" = Some (VThread t))
     ∧ (field_of s task_id "status" = Some (VStr "running")
        ∨ field_of s task_id "status" = Some (VStr "stopping")))
  ∧ (∀ c task_id v,
       field_of (exec c s) task_id "status" = Some v →
       field_of s task_id "status" ≠ Some v →
       (starts task_id c = true ∧ v = VStr "running")
       ∨ (c = CallStop task_id ∧ v = VStr "stopping"))
  ∧ (∀ id running task_id,
       field_of (exec (CallCheck id running) s) task_id "status"
       = field_of s task_id "status").
Proof.
  intros Hwf%reachable_wf. split; [|split].
  - intros task_id l Hl. destruct (wf_record s Hwf _ _ Hl) as (t & th & Ht & _ & _ & Hst).
    rewrite !(field_of_record _ _ _ _ (record_of_Some _ _ _ Hl)). eauto.
  - intros c task_id v. by apply exec_status_written.
  - intros id running task_id. cbn [exec]. by apply check_task_field.
Qed.

Lemma registry_invariant_witness :
  reachable demo_two
  ∧ (∀ task_id l, background_tasks demo_two !! task_id = Some l →
       (∃ t, field_of demo_two task_id "thread" = Some (VThread t))
       ∧ (field_of demo_two task_id "status" = Some (VStr "running")
          ∨ field_of demo_two task_id "status" = Some (VStr "stopping")))
  ∧ (∀ c task_id v,
       field_of (exec c demo_two) task_id "status" = Some v →
       field_of demo_two task_id "status" ≠ Some v →
       (starts task_id c = true ∧ v = VStr "running")
       ∨ (c = CallStop task_id ∧ v = VStr "stopping"))
  ∧ (∀ id running task_id,
       field_of (exec (CallCheck id running) demo_two) task_id "status"
       = field_of demo_two task_id "status").
Proof.
  assert (Hr : reachable demo_two).
  { unfold demo_two, demo_started. repeat constructor. }
  split; [exact Hr|]. exact (registry_invariant demo_two Hr).
Defined.

(** ** Lookup misses *)

Lemma check_task_registry task_id running s :
  background_tasks (check_task task_id running s).2 = background_tasks s.
Proof.
  unfold check_task, mbind, M_bind, dict_new, get_state, deref, is_alive, dict_setitem,
    modify, mret, M_ret.
  cbn. repeat case_match; simplify_eq/=; reflexivity.
Qed.

Lemma stop_task_registry task_id s :
  background_tasks (stop_task task_id s).2 = background_tasks s.
Proof.
  destruct (background_tasks s !! task_id) as [l|] eqn:Hl.
  - by rewrite (stop_task_present _ l).
  - by rewrite stop_task_absent.
Qed.

Lemma cleanup_task_registry task_id s :
  background_tasks (cleanup_task task_id s).2 = delete task_id (background_tasks s).
Proof.
  destruct (background_tasks s !! task_id) as [l|] eqn:Hl.
  - by rewrite cleanup_task_present by (rewrite Hl; eauto).
  - rewrite cleanup_task_absent by done. by rewrite delete_id.
Qed.

Lemma exec_keeps_absent task_id c s :
  starts task_id c = false →
  background_tasks s !! task_id = None →
  background_tasks (exec c s) !! task_id = None.
Proof.
  intros Hc Hl. destruct c as [id w a k clk | id running | id | id]; cbn [exec].
  - destruct (start_task_eq id w a k clk s) as (s' & -> & _ & Hbt & _).
    cbn in Hc. apply bool_decide_eq_false in Hc. cbn [snd].
    by rewrite Hbt, lookup_insert_ne.
  - by rewrite check_task_registry.
  - by rewrite stop_task_registry.
  - rewrite cleanup_task_registry. by apply lookup_delete_None; right.
Qed.

Lemma never_started_absent task_id cs s :
  Forall (λ c, starts task_id c = false) cs →
  background_tasks s !! task_id = None →
  background_tasks (run_calls cs s) !! task_id = None.
Proof.
  intros Hcs. revert s. induction Hcs as [|c cs Hc _ IH]; intros s Hl; cbn; [done|].
  apply IH. by apply exec_keeps_absent.
Qed.

(** C3.  For a task id that is not in the registry, and so for one that no
    [start_task] since the helper was created has named, [check_task]
    returns an empty dictionary and [stop_task] returns [False]; both
    return normally, and the registry is as before. *)
Theorem lookup_miss s task_id running :
  (background_tasks s !! task_id = None
   ∨ ∃ provider cs, s = run_calls cs (init provider)
                    ∧ Forall (λ c, starts task_id c = false) cs) →
  (∃ l s', check_task task_id running s = (Ok l, s')
           ∧ heap s' !!! l = ∅
           ∧ background_tasks s' = background_tasks s)
  ∧ stop_task task_id s = (Ok false, s).
Proof.
  intros H.
  assert (Hl : background_tasks s !! task_id = None).
  { destruct H as [H | (provider & cs & -> & Hcs)]; [done|].
    by apply never_started_absent. }
  split.
  - rewrite check_task_absent by done. eexists _, _. split; [reflexivity|].
    cbn. by rewrite lookup_total_insert_eq.
  - by apply stop_task_absent.
Qed.

Lemma lookup_miss_witness :
  (background_tasks demo_two !! "t9" = None
   ∨ ∃ provider cs, demo_two = run_calls cs (init provider)
                    ∧ Forall (λ c, starts "t9" c = false) cs)
  ∧ (∃ l s', check_task "t9" always_running demo_two = (Ok l, s')
             ∧ heap s' !!! l = ∅
             ∧ background_tasks s' = background_tasks demo_two)
  ∧ stop_task "t9" demo_two = (Ok false, demo_two).
Proof.
  assert (H : background_tasks demo_two !! "t9" = None
              ∨ ∃ provider cs, demo_two = run_calls cs (init provider)
                               ∧ Forall (λ c, starts "t9" c = false) cs).
  { right. exists "demo".
    exists [CallStart "t1" sync_job [] None 1700000000%Z;
            CallStart "t2" async_job [VStr "url"] None 1700000001%Z].
    split; [reflexivity|]. repeat constructor. }
  split; [exact H|]. exact (lookup_miss demo_two "t9" always_running H).
Defined.

(** ** stop_task *)

(** C4.  [stop_task] returns whether the task id is in the registry.  When it
    is, the status of its record is ["stopping"] afterwards and the registry
    has the same keys; when it is not, the state is untouched. *)
Theorem stop_task_spec s task_id :
  ∃ s', stop_task task_id s
        = (Ok (bool_decide (is_Some (background_tasks s !! task_id))), s')
    ∧ (is_Some (background_tasks s !! task_id) →
         field_of s' task_id "status" = Some (VStr "stopping")
         ∧ background_tasks s' = background_tasks s)
    ∧ (background_tasks s !! task_id = None → s' = s).
Proof.
  destruct (background_tasks s !! task_id) as [l|] eqn:Hl.
  - eexists. split; [by rewrite (stop_task_present _ l)|]. split; [|done].
    intros _. split; [|done].
    rewrite <- (stop_task_field_same task_id l s Hl).
    by rewrite (stop_task_present _ l).
  - exists s. split; [by rewrite stop_task_absent|]. split; [|done].
    intros [? ?]; discriminate.
Qed.

Lemma stop_task_spec_witness :
  ∃ s', stop_task "t1" demo_two = (Ok true, s')
        ∧ field_of s' "t1" "status" = Some (VStr "stopping")
        ∧ background_tasks s' = background_tasks demo_two.
Proof.
  destruct (stop_task_spec demo_two "t1") as (s' & Heq & Hpresent & _).
  exists s'. split; [exact Heq|].
  apply Hpresent. exists 0. vm_compute. reflexivity.
Defined.

(** C10.  On a task id present in a reachable registry, [stop_task] changes
    nothing but the status entry of that task's record: its other entries,
    among them [thread] and [start_time], the records of all other task
    ids, the registry's keys and the thread objects are as before. *)
Theorem stop_task_frame s task_id l :
  reachable s →
  background_tasks s !! task_id = Some l →
  ∃ s', stop_task task_id s = (Ok true, s')
    ∧ field_of s' task_id "thread" = field_of s task_id "thread"
    ∧ field_of s' task_id "start_time" = field_of s task_id "start_time"
    ∧ (∀ key, key ≠ "status" → field_of s' task_id key = field_of s task_id key)
    ∧ (∀ id, id ≠ task_id → record_of s' id = record_of s id)
    ∧ background_tasks s' = background_tasks s
    ∧ threads s' = threads s.
Proof.
  intros Hwf%reachable_wf Hl.
  assert (Hkey : ∀ key, key ≠ "status" →
    field_of (stop_task task_id s).2 task_id key = field_of s task_id key).
  { intros key Hne. rewrite (stop_task_present _ l) by done.
    unfold field_of, record_of; cbn. rewrite Hl. cbn.
    by rewrite lookup_total_insert_eq, lookup_insert_ne. }
  assert (Hother : ∀ id, id ≠ task_id →
    record_of (stop_task task_id s).2 id = record_of s id).
  { intros id Hne. by apply stop_task_record_other. }
  rewrite (stop_task_present _ l) in Hkey, Hother by done.
  eexists. split; [by apply stop_task_present|].
  repeat split; try done; by apply Hkey.
Qed.

Lemma stop_task_frame_witness :
  reachable demo_two
  ∧ background_tasks demo_two !! "t1" = Some 0
  ∧ ∃ s', stop_task "t1" demo_two = (Ok true, s')
    ∧ field_of s' "t1" "thread" = field_of demo_two "t1" "thread"
    ∧ field_of s' "t1" "start_time" = field_of demo_two "t1" "start_time"
    ∧ (∀ key, key ≠ "status" → field_of s' "t1" key = field_of demo_two "t1" key)
    ∧ (∀ id, id ≠ "t1" → record_of s' id = record_of demo_two id)
    ∧ background_tasks s' = background_tasks demo_two
    ∧ threads s' = threads demo_two.
Proof.
  assert (Hr : reachable demo_two).
  { unfold demo_two, demo_started. repeat constructor. }
  assert (Hl : background_tasks demo_two !! "t1" = Some 0) by (vm_compute; reflexivity).
  split; [exact Hr|]. split; [exact Hl|].
  exact (stop_task_frame demo_two "t1" 0 Hr Hl).
Defined.

(** ** cleanup_task *)

(** C5.  [cleanup_task] returns normally on every state; afterwards the task
    id is not in the registry and every other record is as before.  A second
    call right after the first changes nothing, and neither does a call on an
    id that is not registered. *)
Theorem cleanup_task_idempotent s task_id :
  ∃ s', cleanup_task task_id s = (Ok tt, s')
    ∧ background_tasks s' = delete task_id (background_tasks s)
    ∧ (∀ id, id ≠ task_id → record_of s' id = record_of s id)
    ∧ cleanup_task task_id s' = (Ok tt, s')
    ∧ (background_tasks s !! task_id = None → s' = s).
Proof.
  destruct (background_tasks s !! task_id) as [l|] eqn:Hl.
  - eexists. split; [apply cleanup_task_present; eauto|].
    split; [done|]. split; [|split; [|done]].
    + intros id Hne. pose proof (cleanup_task_record task_id s id) as H.
      rewrite cleanup_task_present in H by eauto.
      by rewrite decide_False in H by done.
    + apply cleanup_task_absent. cbn. apply lookup_delete_eq.
  - exists s. rewrite cleanup_task_absent by done.
    repeat split; try done. by rewrite delete_id.
Qed.

Lemma cleanup_task_idempotent_witness :
  ∃ s', cleanup_task "t1" demo_two = (Ok tt, s')
        ∧ background_tasks s' !! "t1" = None
        ∧ cleanup_task "t1" s' = (Ok tt, s').
Proof.
  destruct (cleanup_task_idempotent demo_two "t1") as (s' & Heq & Hbt & _ & Hagain & _).
  exists s'. split; [exact Heq|]. split; [|exact Hagain].
  rewrite Hbt. apply lookup_delete_eq.
Defined.

(** ** start_task *)

(** C6.  [start_task] returns normally and leaves under the task id a new
    record with status ["running"], whether or not the id was registered.
    After two calls with the same id the registry has one entry for it, the
    record of the second call with the second call's thread.  The thread of
    the first call is a different object, still in the state it was started
    in: it was neither joined nor stopped. *)
Theorem start_task_overwrites s task_id w1 a1 k1 c1 w2 a2 k2 c2 :
  ∃ s1 s2,
    start_task task_id w1 a1 k1 c1 s = (Ok tt, s1)
    ∧ start_task task_id w2 a2 k2 c2 s1 = (Ok tt, s2)
    ∧ record_of s1 task_id = Some (new_record (next_thread s) c1)
    ∧ field_of s1 task_id "status" = Some (VStr "running")
    ∧ record_of s2 task_id = Some (new_record (next_thread s1) c2)
    ∧ field_of s2 task_id "status" = Some (VStr "running")
    ∧ next_thread s1 ≠ next_thread s
    ∧ threads s2 !! next_thread s1 = Some (launched (wrap w2 a2 k2))
    ∧ threads s1 !! next_thread s = Some (launched (wrap w1 a1 k1))
    ∧ threads s2 !! next_thread s = threads s1 !! next_thread s
    ∧ dom (background_tasks s1) = {[task_id]} ∪ dom (background_tasks s)
    ∧ dom (background_tasks s2) = dom (background_tasks s1)
    ∧ size (background_tasks s2) = size (background_tasks s1).
Proof.
  pose proof (start_task_record_same task_id w1 a1 k1 c1 s) as Hrec1.
  destruct (start_task_eq task_id w1 a1 k1 c1 s)
    as (s1 & Heq1 & _ & Hbt1 & _ & _ & Hth1 & Hnt1 & _).
  rewrite Heq1 in Hrec1. cbn [snd] in Hrec1.
  pose proof (start_task_record_same task_id w2 a2 k2 c2 s1) as Hrec2.
  destruct (start_task_eq task_id w2 a2 k2 c2 s1)
    as (s2 & Heq2 & _ & Hbt2 & _ & _ & Hth2 & _).
  rewrite Heq2 in Hrec2. cbn [snd] in Hrec2.
  assert (Hdom : dom (background_tasks s2) = dom (background_tasks s1)).
  { by rewrite Hbt2, Hbt1, insert_insert_eq, !dom_insert_L. }
  exists s1, s2. repeat split; try done.
  - by rewrite (field_of_record _ _ _ _ Hrec1).
  - by rewrite (field_of_record _ _ _ _ Hrec2).
  - lia.
  - by rewrite Hth2, lookup_insert_eq.
  - by rewrite Hth1, lookup_insert_eq.
  - rewrite Hth2, lookup_insert_ne by lia. done.
  - by rewrite Hbt1, dom_insert_L.
  - by rewrite <- !size_dom, Hdom.
Qed.

(** ** create_message *)

(** C7.  [create_message] returns normally and leaves the state as it found
    it.  The message carries the arguments in its five fields, and its JSON
    object has these five members and no other. *)
Theorem create_message_pure s tool_name session_id task_id result status :
  ∃ m, create_message tool_name session_id task_id result status s = (Ok m, s)
    ∧ MCPCMessage.session_id m = session_id
    ∧ MCPCMessage.task_id m = task_id
    ∧ MCPCMessage.tool_name m = tool_name
    ∧ MCPCMessage.result m = default JNull result
    ∧ MCPCMessage.status m = default MCPCMessage.task_update status
    ∧ MCPCMessage.model_dump m
      = [("session_id", JStr session_id); ("task_id", JStr task_id);
         ("tool_name", JStr tool_name); ("result", default JNull result);
         ("status", JStr (MCPCMessage.status_str (default MCPCMessage.task_update status)))].
Proof. eexists. repeat split. Qed.

(** ** send_direct *)

Section send_properties.
Context {TextContent JSONRPCResponse JSONRPCMessage : Type}.
Variable mk_TextContent : string → string → result TextContent.
Variable mk_JSONRPCResponse :
  string → string → tool_result TextContent → result JSONRPCResponse.
Variable mk_JSONRPCMessage : JSONRPCResponse → result JSONRPCMessage.
Variable model_dump_json : JSONRPCMessage → result string.

Local Abbreviation serialize :=
  (serialize_envelope mk_TextContent mk_JSONRPCResponse mk_JSONRPCMessage model_dump_json).
Local Abbreviation send :=
  (send_direct mk_TextContent mk_JSONRPCResponse mk_JSONRPCMessage model_dump_json).

(** Building and dumping the envelope does not touch the state. *)
Lemma serialize_envelope_state message s :
  serialize message s = ((serialize message s).1, s).
Proof.
  unfold serialize_envelope, mbind, M_bind, lift.
  destruct (mk_TextContent message "text") as [tc|e]; [|done].
  destruct (mk_JSONRPCResponse _ _ _) as [r|e]; [|done].
  destruct (mk_JSONRPCMessage r) as [m|e]; done.
Qed.

(** An exception outside [Exception] is not caught: here one that arrives
    while the line is written. *)
Lemma send_direct_passes_BaseException message serialized flush e s :
  (serialize message s).1 = Ok serialized →
  is_Exception e = false →
  send message {| write_fault := Some e; flush_fault := flush |} s = (Raise e, s).
Proof.
  intros Hser He. unfold send_direct, try_except_Exception, mbind, M_bind.
  rewrite serialize_envelope_state, Hser. cbn. by rewrite He.
Qed.

(** C8.  Provided that what serialization and the stream raise are
    instances of [Exception], [send_direct] returns a boolean and never
    raises.  The boolean is [True] when the envelope was serialized,
    written and flushed: the consumer has then received what was pending
    followed by the serialized text and a newline, and nothing is left in
    the buffer.  In every other case it is [False], nothing new has reached
    the consumer and the error is logged. *)
Theorem send_direct_best_effort message io s :
  (∀ e, (serialize message s).1 = Raise e ∨ write_fault io = Some e ∨ flush_fault io = Some e →
        is_Exception e = true) →
  ∃ b s', send message io s = (Ok b, s')
    ∧ match (serialize message s).1, write_fault io, flush_fault io with
      | Ok serialized, None, None =>
          b = true
          ∧ stdout_flushed s'
            = stdout_flushed s +:+ (stdout_buffer s +:+ (serialized +:+ newline))
          ∧ stdout_buffer s' = ""
      | Raise e, _, _ | Ok _, Some e, _ | Ok _, None, Some e =>
          b = false
          ∧ stdout_flushed s' = stdout_flushed s
          ∧ last (log s') = Some (ERROR, "Error sending direct message: " +:+ exn_str e)
      end.
Proof.
  intros Hexn. unfold send_direct, try_except_Exception, mbind, M_bind.
  rewrite serialize_envelope_state.
  destruct (serialize message s).1 as [serialized|e] eqn:Hser.
  - destruct io as [[e|] fl]; cbn in *.
    + rewrite (Hexn e) by auto. cbn. eexists _, _. split; [reflexivity|].
      cbn. by rewrite last_snoc.
    + destruct fl as [e|]; cbn in *.
      * rewrite (Hexn e) by auto. cbn. eexists _, _. split; [reflexivity|].
        cbn. by rewrite last_snoc.
      * eexists _, _. split; [reflexivity|]. done.
  - rewrite (Hexn e) by auto. cbn. eexists _, _. split; [reflexivity|].
    destruct (write_fault io), (flush_fault io); cbn; by rewrite last_snoc.
Qed.
End send_properties.


(** The stream refuses the write with a broken pipe: [send_direct] returns
    [False], and the consumer has received nothing. *)
Lemma send_direct_best_effort_witness :
  (∀ e, (serialize_envelope demo_TextContent demo_JSONRPCResponse demo_JSONRPCMessage
           demo_model_dump_json "hello" demo_started).1 = Raise e
        ∨ write_fault broken_pipe = Some e ∨ flush_fault broken_pipe = Some e →
        is_Exception e = true)
  ∧ ∃ s', send_direct demo_TextContent demo_JSONRPCResponse demo_JSONRPCMessage
            demo_model_dump_json "hello" broken_pipe demo_started = (Ok false, s')
          ∧ stdout_flushed s' = "".
Proof.
  assert (H : ∀ e,
    (serialize_envelope demo_TextContent demo_JSONRPCResponse demo_JSONRPCMessage
       demo_model_dump_json "hello" demo_started).1 = Raise e
    ∨ write_fault broken_pipe = Some e ∨ flush_fault broken_pipe = Some e →
    is_Exception e = true).
  { intros e [He | [He | He]]; [discriminate He | | discriminate He].
    injection He as <-. reflexivity. }
  split; [exact H|].
  destruct (send_direct_best_effort demo_TextContent demo_JSONRPCResponse
              demo_JSONRPCMessage demo_model_dump_json "hello" broken_pipe demo_started H)
    as (b & s' & Heq & Hb & Hout & _).
  exists s'. subst b. split; [exact Heq|exact Hout].
Defined.

(** With a stream that accepts the line, the consumer receives the
    serialized envelope followed by a newline. *)
Example send_direct_delivers_line :
  let io := {| write_fault := None; flush_fault := None |} in
  ∃ s', send_direct demo_TextContent demo_JSONRPCResponse demo_JSONRPCMessage
          demo_model_dump_json "hello" io demo_started = (Ok true, s')
        ∧ stdout_flushed s' = "2.0|MCPC_CALLBACK|hello" +:+ newline
        ∧ stdout_buffer s' = "".
Proof. eexists. repeat split. Qed.

(** A payload that cannot be serialized is reported, not raised. *)
Example send_direct_reports_serialization_error :
  let io := {| write_fault := None; flush_fault := None |} in
  ∃ s', send_direct demo_TextContent demo_JSONRPCResponse demo_JSONRPCMessage
          failing_model_dump_json "hello" io demo_started = (Ok false, s')
        ∧ stdout_flushed s' = ""
        ∧ last (log s') = Some (ERROR, "Error sending direct message: not serializable").
Proof. eexists. repeat split. Qed.

(** The second [start_task] for ["t1"] replaces the record; the first thread
    stays as it was launched. *)
Example start_task_twice :
  let s2 := exec (CallStart "t1" async_job [] None 1700000002%Z) demo_started in
  field_of s2 "t1" "thread" = Some (VThread 1)
  ∧ field_of demo_started "t1" "thread" = Some (VThread 0)
  ∧ threads s2 !! 0 = Some (launched (sync_wrapper sync_job [] ∅))
  ∧ size (background_tasks s2) = 1.
Proof. vm_compute. repeat split. Qed.

(** * Further properties of the helper *)

(** ** What the registry operations leave alone *)

Lemma check_task_frame task_id running s :
  provider_name (check_task task_id running s).2 = provider_name s
  ∧ threads (check_task task_id running s).2 = threads s
  ∧ next_thread (check_task task_id running s).2 = next_thread s
  ∧ log (check_task task_id running s).2 = log s
  ∧ stdout_buffer (check_task task_id running s).2 = stdout_buffer s
  ∧ stdout_flushed (check_task task_id running s).2 = stdout_flushed s.
Proof.
  unfold check_task, mbind, M_bind, dict_new, get_state, deref, is_alive, dict_setitem,
    modify, mret, M_ret.
  cbn. repeat case_match; simplify_eq/=; done.
Qed.

Lemma stop_task_frame_all task_id s :
  provider_name (stop_task task_id s).2 = provider_name s
  ∧ threads (stop_task task_id s).2 = threads s
  ∧ next_thread (stop_task task_id s).2 = next_thread s
  ∧ log (stop_task task_id s).2 = log s.
Proof.
  destruct (background_tasks s !! task_id) as [l|] eqn:Hl.
  - by rewrite (stop_task_present _ l).
  - by rewrite stop_task_absent.
Qed.

Lemma cleanup_task_frame task_id s :
  provider_name (cleanup_task task_id s).2 = provider_name s
  ∧ heap (cleanup_task task_id s).2 = heap s
  ∧ threads (cleanup_task task_id s).2 = threads s
  ∧ next_thread (cleanup_task task_id s).2 = next_thread s.
Proof.
  destruct (background_tasks s !! task_id) as [l|] eqn:Hl.
  - by rewrite cleanup_task_present by (rewrite Hl; eauto).
  - by rewrite cleanup_task_absent.
Qed.

(** X1.  The provider name given to the constructor is what
    [get_protocol_info] reports after any sequence of registry calls, and
    asking for it changes nothing. *)
Theorem get_protocol_info_constant provider cs :
  get_protocol_info (run_calls cs (init provider))
  = (Ok {| MCPCInformation.mcpc_provider := provider |}, run_calls cs (init provider)).
Proof.
  assert (H : ∀ s, provider_name (run_calls cs s) = provider_name s).
  { induction cs as [|c cs IH]; intros s; [done|].
    change (run_calls (c :: cs) s) with (run_calls cs (exec c s)). rewrite IH.
    destruct c as [id w a k clk | id running | id | id]; cbn [exec].
    - by destruct (start_task_eq id w a k clk s) as (s' & -> & Hp & _).
    - apply check_task_frame.
    - apply stop_task_frame_all.
    - apply cleanup_task_frame. }
  unfold get_protocol_info, mbind, M_bind, get_state, mret, M_ret.
  by rewrite H.
Qed.

(** X2.  The registry's keys change with [start_task], which adds its id, and
    with [cleanup_task], which removes its id, and with nothing else. *)
Theorem exec_keys c s :
  dom (background_tasks (exec c s)) = keys_after c (dom (background_tasks s)).
Proof.
  destruct c as [id w a k clk | id running | id | id]; cbn [exec keys_after].
  - destruct (start_task_eq id w a k clk s) as (s' & -> & _ & Hbt & _).
    cbn [snd]. by rewrite Hbt, dom_insert_L.
  - by rewrite check_task_registry.
  - by rewrite stop_task_registry.
  - by rewrite cleanup_task_registry, dom_delete_L.
Qed.

(** X3.  What a call logs: [start_task] one line, [cleanup_task] one line
    when the id was registered and none otherwise, [check_task] and
    [stop_task] nothing. *)
Theorem exec_log c s : log (exec c s) = (log s ++ logged c s)%list.
Proof.
  destruct c as [id w a k clk | id running | id | id]; cbn [exec logged].
  - by destruct (start_task_eq id w a k clk s) as (s' & -> & _ & _ & _ & _ & _ & _ & Hlog & _).
  - rewrite app_nil_r. apply check_task_frame.
  - rewrite app_nil_r. apply stop_task_frame_all.
  - destruct (background_tasks s !! id) as [l|] eqn:Hl.
    + rewrite cleanup_task_present by eauto.
      by rewrite bool_decide_eq_true_2 by eauto.
    + rewrite cleanup_task_absent by done.
      rewrite bool_decide_eq_false_2; [by rewrite app_nil_r|].
      intros [? ?]; discriminate.
Qed.

(** ** Thread objects *)

Lemma threads_ok_init provider : threads_ok (init provider).
Proof. intros t th. cbn. rewrite lookup_empty. discriminate. Qed.

Lemma threads_ok_exec c s : threads_ok s → threads_ok (exec c s).
Proof.
  intros Hok. destruct c as [id w a k clk | id running | id | id]; cbn [exec].
  - destruct (start_task_eq id w a k clk s)
      as (s' & -> & _ & _ & _ & _ & Hth & Hnt & _).
    cbn [snd]. intros t th. rewrite Hth, Hnt, lookup_insert. case_decide.
    + intros [= <-]. subst. cbn. auto with lia.
    + intros Hlk. destruct (Hok _ _ Hlk) as (? & ? & ?). auto with lia.
  - destruct (check_task_frame id running s) as (_ & Hth & Hnt & _).
    intros t th. rewrite Hth, Hnt. apply Hok.
  - destruct (stop_task_frame_all id s) as (_ & Hth & Hnt & _).
    intros t th. rewrite Hth, Hnt. apply Hok.
  - destruct (cleanup_task_frame id s) as (_ & _ & Hth & Hnt).
    intros t th. rewrite Hth, Hnt. apply Hok.
Qed.

Lemma reachable_threads_ok s : reachable s → threads_ok s.
Proof. induction 1; auto using threads_ok_init, threads_ok_exec. Qed.

Lemma exec_keeps_thread c s t th :
  threads_ok s → threads s !! t = Some th → threads (exec c s) !! t = Some th.
Proof.
  intros Hok Hlk. destruct c as [id w a k clk | id running | id | id]; cbn [exec].
  - destruct (start_task_eq id w a k clk s)
      as (s' & -> & _ & _ & _ & _ & Hth & _).
    cbn [snd]. rewrite Hth, lookup_insert_ne; [done|].
    destruct (Hok _ _ Hlk) as (? & _). lia.
  - destruct (check_task_frame id running s) as (_ & -> & _). done.
  - destruct (stop_task_frame_all id s) as (_ & -> & _). done.
  - destruct (cleanup_task_frame id s) as (_ & _ & -> & _). done.
Qed.

(** X4.  A thread object the helper has created is a started daemon thread,
    and no later registry call touches it: not a [stop_task], not a
    [cleanup_task] of its task, not a [start_task] that takes over its task
    id.  The helper never joins or ends a thread. *)
Theorem threads_never_touched s t th cs :
  reachable s →
  threads s !! t = Some th →
  started th = true ∧ daemon th = true ∧ threads (run_calls cs s) !! t = Some th.
Proof.
  intros Hr Hlk. pose proof (reachable_threads_ok s Hr) as Hok.
  destruct (Hok _ _ Hlk) as (_ & Hst & Hd). split; [done|]. split; [done|].
  clear Hst Hd Hr. revert s Hok Hlk.
  induction cs as [|c cs IH]; intros s Hok Hlk; [done|].
  change (run_calls (c :: cs) s) with (run_calls cs (exec c s)).
  apply IH; [by apply threads_ok_exec | by apply exec_keeps_thread].
Qed.

Lemma threads_never_touched_witness :
  reachable demo_started
  ∧ threads demo_started !! 0 = Some (launched (sync_wrapper sync_job [] ∅))
  ∧ started (launched (sync_wrapper sync_job [] ∅)) = true
  ∧ daemon (launched (sync_wrapper sync_job [] ∅)) = true
  ∧ threads (run_calls [CallStop "t1"; CallStart "t1" async_job [] None 7%Z;
                        CallCleanup "t1"] demo_started) !! 0
    = Some (launched (sync_wrapper sync_job [] ∅)).
Proof.
  assert (Hr : reachable demo_started) by (unfold demo_started; constructor; constructor).
  assert (Hl : threads demo_started !! 0 = Some (launched (sync_wrapper sync_job [] ∅)))
    by (vm_compute; reflexivity).
  split; [exact Hr|]. split; [exact Hl|].
  exact (threads_never_touched demo_started 0 _
           [CallStop "t1"; CallStart "t1" async_job [] None 7%Z; CallCleanup "t1"] Hr Hl).
Defined.

(** ** check_task at the edges *)

(** X5.  Right after [start_task], [check_task] on the same id returns the
    new record: the new thread, the clock reading, status ["running"], and
    under [is_running] whether that thread is running at the time of the
    check.  This holds from every state. *)
Theorem start_then_check task_id worker_func args kwargs clock running s :
  ∃ s1 l s2,
    start_task task_id worker_func args kwargs clock s = (Ok tt, s1)
    ∧ check_task task_id running s1 = (Ok l, s2)
    ∧ heap s2 !!! l
      = <["is_running" := VBool (running (next_thread s))]>
          (new_record (next_thread s) clock)
    ∧ record_of s2 task_id = Some (heap s2 !!! l).
Proof.
  destruct (start_task_eq task_id worker_func args kwargs clock s)
    as (s1 & Heq & _ & Hbt & Hh & Hn & Hth & _).
  assert (Hl : background_tasks s1 !! task_id = Some (next_loc s))
    by (by rewrite Hbt, lookup_insert_eq).
  assert (Hrec : heap s1 !!! next_loc s = new_record (next_thread s) clock)
    by (by rewrite Hh, lookup_total_insert_eq).
  assert (Ht : (heap s1 !!! next_loc s) !! "thread" = Some (VThread (next_thread s)))
    by (by rewrite Hrec).
  assert (Hne : next_loc s ≠ next_loc s1) by lia.
  exists s1, (next_loc s). eexists. split; [done|].
  split; [by apply (check_task_present _ _ _ (next_thread s))|].
  unfold record_of, thread_alive. cbn. rewrite Hl, Hth, lookup_insert_eq. cbn.
  rewrite lookup_total_insert_eq, Hrec. done.
Qed.

(** X6.  The flag is not sticky.  A second [check_task] replaces the
    [is_running] left by the first with the liveness at the second call, so
    the record after both checks is the record after the second alone. *)
Theorem check_task_twice s task_id l running1 running2 :
  reachable s →
  background_tasks s !! task_id = Some l →
  ∃ t, (heap s !!! l) !! "thread" = Some (VThread t)
    ∧ record_of (check_task task_id running2 (check_task task_id running1 s).2).2 task_id
      = Some (<["is_running" := VBool (running2 t)]> (heap s !!! l))
    ∧ record_of (check_task task_id running2 (check_task task_id running1 s).2).2 task_id
      = record_of (check_task task_id running2 s).2 task_id.
Proof.
  intros Hwf%reachable_wf Hl.
  destruct (check_task_record_same task_id running1 s l Hwf Hl) as (t & Ht & Heq1).
  destruct (check_task_record_same task_id running2 s l Hwf Hl) as (t' & Ht' & Heq2).
  assert (t' = t) by congruence. subst t'.
  pose proof (wf_check_task task_id running1 s Hwf) as Hwf1.
  assert (Hl1 : background_tasks (check_task task_id running1 s).2 !! task_id = Some l)
    by (by rewrite check_task_registry).
  destruct (check_task_record_same task_id running2 _ l Hwf1 Hl1) as (t1 & Ht1 & Heq3).
  assert (Hrec1 : heap (check_task task_id running1 s).2 !!! l
                  = <["is_running" := VBool (running1 t)]> (heap s !!! l)).
  { rewrite Heq1. cbn. by rewrite lookup_total_insert_eq. }
  assert (t1 = t).
  { rewrite Hrec1, lookup_insert_ne in Ht1 by done. congruence. }
  subst t1. exists t. split; [done|].
  assert (Hfinal :
    record_of (check_task task_id running2 (check_task task_id running1 s).2).2 task_id
    = Some (<["is_running" := VBool (running2 t)]> (heap s !!! l))).
  { rewrite Heq3. unfold record_of. cbn. rewrite Hl1. cbn.
    rewrite lookup_total_insert_eq, Hrec1. by rewrite insert_insert_eq. }
  split; [done|]. rewrite Hfinal, Heq2. unfold record_of. cbn. rewrite Hl. cbn.
  by rewrite lookup_total_insert_eq.
Qed.

Lemma check_task_twice_witness :
  reachable demo_started
  ∧ background_tasks demo_started !! "t1" = Some 0
  ∧ ∃ t, (heap demo_started !!! 0) !! "thread" = Some (VThread t)
    ∧ record_of (check_task "t1" never_running
                   (check_task "t1" always_running demo_started).2).2 "t1"
      = Some (<["is_running" := VBool (never_running t)]> (heap demo_started !!! 0))
    ∧ record_of (check_task "t1" never_running
                   (check_task "t1" always_running demo_started).2).2 "t1"
      = record_of (check_task "t1" never_running demo_started).2 "t1".
Proof.
  assert (Hr : reachable demo_started) by (unfold demo_started; constructor; constructor).
  assert (Hl : background_tasks demo_started !! "t1" = Some 0) by (vm_compute; reflexivity).
  split; [exact Hr|]. split; [exact Hl|].
  exact (check_task_twice demo_started "t1" 0 always_running never_running Hr Hl).
Defined.

Lemma check_task_raises s task_id running (l : loc) v :
  background_tasks s !! task_id = Some l →
  l < next_loc s →
  (heap s !!! l) !! "thread" = Some v →
  truthy v = true →
  (∀ t, v ≠ VThread t) →
  check_task task_id running s
  = (Raise (Exn AttributeError "object has no attribute 'is_alive'"),
     set_heap <[next_loc s := ∅]> (S (next_loc s)) s).
Proof.
  intros Hl Hlt Hv Htrue Hnot.
  assert (Hd : dict_truthy (heap s !!! l) = true).
  { unfold dict_truthy. rewrite bool_decide_eq_false_2; [done|].
    intros He. rewrite He, lookup_empty in Hv. discriminate. }
  unfold check_task, mbind, M_bind, dict_new, get_state, deref.
  cbn [background_tasks set_heap heap]. rewrite Hl. cbn [default from_option id].
  rewrite lookup_total_insert_ne by lia. rewrite Hd.
  unfold dict_get. rewrite Hv. cbn [default from_option id]. rewrite Htrue.
  destruct v as [| b | str | bits | t]; try done. by destruct (Hnot t).
Qed.

Lemma check_task_skips s task_id running (l : loc) :
  background_tasks s !! task_id = Some l →
  l < next_loc s →
  truthy (dict_get (heap s !!! l) "thread") = false →
  check_task task_id running s = (Ok l, set_heap <[next_loc s := ∅]> (S (next_loc s)) s).
Proof.
  intros Hl Hlt Hfalse.
  unfold check_task, mbind, M_bind, dict_new, get_state, deref.
  cbn [background_tasks set_heap heap]. rewrite Hl. cbn [default from_option id].
  rewrite lookup_total_insert_ne by lia. rewrite Hfalse.
  by destruct (dict_truthy (heap s !!! l)).
Qed.

(** X7.  When the [thread] entry of a registered record holds something true
    that is not a thread object, as it can after a caller has written to the
    dictionary [check_task] handed out, [check_task] raises [AttributeError];
    the record and the registry are as before. *)
Theorem check_task_foreign_handle s task_id running (l : loc) v :
  background_tasks s !! task_id = Some l →
  l < next_loc s →
  (heap s !!! l) !! "thread" = Some v →
  truthy v = true →
  (∀ t, v ≠ VThread t) →
  ∃ e s', check_task task_id running s = (Raise e, s')
    ∧ exn_cls e = AttributeError
    ∧ heap s' !!! l = heap s !!! l
    ∧ background_tasks s' = background_tasks s.
Proof.
  intros Hl Hlt Hv Htrue Hnot.
  rewrite (check_task_raises s task_id running l v) by done.
  eexists _, _. split; [reflexivity|]. cbn.
  by rewrite lookup_total_insert_ne by lia.
Qed.

Lemma check_task_foreign_handle_witness :
  background_tasks demo_tampered !! "t1" = Some 0
  ∧ 0 < next_loc demo_tampered
  ∧ (heap demo_tampered !!! 0) !! "thread" = Some (VStr "gone")
  ∧ truthy (VStr "gone") = true
  ∧ (∀ t, VStr "gone" ≠ VThread t)
  ∧ ∃ e s', check_task "t1" always_running demo_tampered = (Raise e, s')
      ∧ exn_cls e = AttributeError
      ∧ heap s' !!! 0 = heap demo_tampered !!! 0
      ∧ background_tasks s' = background_tasks demo_tampered.
Proof.
  assert (H1 : background_tasks demo_tampered !! "t1" = Some 0) by (vm_compute; reflexivity).
  assert (H2 : 0 < next_loc demo_tampered) by (vm_compute; lia).
  assert (H3 : (heap demo_tampered !!! 0) !! "thread" = Some (VStr "gone"))
    by (vm_compute; reflexivity).
  assert (H4 : truthy (VStr "gone") = true) by reflexivity.
  assert (H5 : ∀ t, VStr "gone" ≠ VThread t) by (intros t; discriminate).
  repeat (split; [assumption|]).
  exact (check_task_foreign_handle demo_tampered "t1" always_running 0 _ H1 H2 H3 H4 H5).
Defined.

(** X8.  When a registered record is empty or its [thread] entry is missing,
    [None] or otherwise false, [check_task] returns the record as it is and
    stores no [is_running]. *)
Theorem check_task_without_handle s task_id running (l : loc) :
  background_tasks s !! task_id = Some l →
  l < next_loc s →
  truthy (dict_get (heap s !!! l) "thread") = false →
  ∃ s', check_task task_id running s = (Ok l, s')
    ∧ heap s' !!! l = heap s !!! l
    ∧ background_tasks s' = background_tasks s.
Proof.
  intros Hl Hlt Hfalse.
  rewrite (check_task_skips s task_id running l) by done.
  eexists. split; [reflexivity|]. cbn.
  by rewrite lookup_total_insert_ne by lia.
Qed.

Lemma check_task_without_handle_witness :
  background_tasks demo_detached !! "t1" = Some 0
  ∧ 0 < next_loc demo_detached
  ∧ truthy (dict_get (heap demo_detached !!! 0) "thread") = false
  ∧ ∃ s', check_task "t1" always_running demo_detached = (Ok 0, s')
      ∧ heap s' !!! 0 = heap demo_detached !!! 0
      ∧ background_tasks s' = background_tasks demo_detached.
Proof.
  assert (H1 : background_tasks demo_detached !! "t1" = Some 0) by (vm_compute; reflexivity).
  assert (H2 : 0 < next_loc demo_detached) by (vm_compute; lia).
  assert (H3 : truthy (dict_get (heap demo_detached !!! 0) "thread") = false)
    by (vm_compute; reflexivity).
  repeat (split; [assumption|]).
  exact (check_task_without_handle demo_detached "t1" always_running 0 H1 H2 H3).
Defined.

(** X9.  As long as the registry is only used through its four operations,
    none of them raises: from a reachable state every call returns. *)
Theorem registry_calls_return s :
  reachable s →
  (∀ task_id worker_func args kwargs clock,
     (start_task task_id worker_func args kwargs clock s).1 = Ok tt)
  ∧ (∀ task_id running, ∃ l, (check_task task_id running s).1 = Ok l)
  ∧ (∀ task_id, (stop_task task_id s).1
                = Ok (bool_decide (is_Some (background_tasks s !! task_id))))
  ∧ (∀ task_id, (cleanup_task task_id s).1 = Ok tt).
Proof.
  intros Hwf%reachable_wf. repeat split.
  - intros id w a k clk. by destruct (start_task_eq id w a k clk s) as (s' & -> & _).
  - intros id running. destruct (background_tasks s !! id) as [l|] eqn:Hl.
    + destruct (check_task_record_same id running s l Hwf Hl) as (t & _ & ->). eauto.
    + rewrite check_task_absent by done. eauto.
  - intros id. destruct (background_tasks s !! id) as [l|] eqn:Hl.
    + rewrite (stop_task_present _ l) by done. by rewrite bool_decide_eq_true_2 by eauto.
    + rewrite stop_task_absent by done. rewrite bool_decide_eq_false_2; [done|].
      intros [? ?]; discriminate.
  - intros id. destruct (background_tasks s !! id) as [l|] eqn:Hl.
    + by rewrite cleanup_task_present by eauto.
    + by rewrite cleanup_task_absent.
Qed.

Lemma registry_calls_return_witness :
  reachable demo_two
  ∧ (∀ task_id worker_func args kwargs clock,
       (start_task task_id worker_func args kwargs clock demo_two).1 = Ok tt)
  ∧ (∀ task_id running, ∃ l, (check_task task_id running demo_two).1 = Ok l)
  ∧ (∀ task_id, (stop_task task_id demo_two).1
                = Ok (bool_decide (is_Some (background_tasks demo_two !! task_id))))
  ∧ (∀ task_id, (cleanup_task task_id demo_two).1 = Ok tt).
Proof.
  assert (Hr : reachable demo_two).
  { unfold demo_two, demo_started. repeat constructor. }
  split; [exact Hr|]. exact (registry_calls_return demo_two Hr).
Defined.

(** ** stop_task and cleanup_task in sequence *)

(** X10.  [stop_task] is idempotent: a second call on the same id returns
    what the first returned and leaves the state of the first. *)
Theorem stop_task_idempotent s task_id :
  stop_task task_id (stop_task task_id s).2 = stop_task task_id s.
Proof.
  destruct (background_tasks s !! task_id) as [l|] eqn:Hl.
  - rewrite (stop_task_present _ l s) by done. cbn [snd].
    rewrite (stop_task_present _ l) by done. f_equal.
    apply state_eq; cbn; try done.
    rewrite lookup_total_insert_eq, !insert_insert_eq. done.
  - rewrite (stop_task_absent task_id s) by done. cbn [snd]. by apply stop_task_absent.
Qed.

(** X11.  [stop_task] only leaves a note.  A check after it shows status
    ["stopping"] next to the same handle, and [is_running] still says whether
    the thread is running: a thread that keeps going is reported as running. *)
Theorem stop_task_is_advisory s task_id l running :
  reachable s →
  background_tasks s !! task_id = Some l →
  ∃ t, field_of s task_id "thread" = Some (VThread t)
    ∧ let s' := (check_task task_id running (stop_task task_id s).2).2 in
      field_of s' task_id "thread" = Some (VThread t)
      ∧ field_of s' task_id "status" = Some (VStr "stopping")
      ∧ field_of s' task_id "is_running" = Some (VBool (running t))
      ∧ threads s' = threads s.
Proof.
  intros Hwf%reachable_wf Hl.
  pose proof (wf_stop_task task_id s Hwf) as Hwf1.
  assert (Hl1 : background_tasks (stop_task task_id s).2 !! task_id = Some l)
    by (by rewrite stop_task_registry).
  destruct (check_task_record_same task_id running _ l Hwf1 Hl1) as (t & Ht & Heq).
  assert (Hrec1 : heap (stop_task task_id s).2 !!! l
                  = <["status" := VStr "stopping"]> (heap s !!! l)).
  { rewrite (stop_task_present _ l) by done. cbn. by rewrite lookup_total_insert_eq. }
  rewrite Hrec1 in Ht. rewrite lookup_insert_ne in Ht by done.
  exists t. split.
  { by rewrite (field_of_record _ _ _ _ (record_of_Some _ _ _ Hl)). }
  cbn zeta. rewrite Heq. cbn [snd].
  assert (Hrec : record_of
    (set_heap (λ h, <[l := <["is_running" := VBool (running t)]>
                              (heap (stop_task task_id s).2 !!! l)]>
                      (<[next_loc (stop_task task_id s).2 := ∅]> h))
       (S (next_loc (stop_task task_id s).2)) (stop_task task_id s).2) task_id
    = Some (<["is_running" := VBool (running t)]>
              (<["status" := VStr "stopping"]> (heap s !!! l)))).
  { unfold record_of. cbn. rewrite Hl1. cbn. by rewrite lookup_total_insert_eq, Hrec1. }
  rewrite !(field_of_record _ _ _ _ Hrec).
  repeat split.
  - by rewrite !lookup_insert_ne.
  - by rewrite lookup_insert_ne, lookup_insert_eq.
  - by rewrite lookup_insert_eq.
  - cbn. apply stop_task_frame_all.
Qed.

Lemma stop_task_is_advisory_witness :
  reachable demo_two
  ∧ background_tasks demo_two !! "t1" = Some 0
  ∧ ∃ t, field_of demo_two "t1" "thread" = Some (VThread t)
    ∧ let s' := (check_task "t1" always_running (stop_task "t1" demo_two).2).2 in
      field_of s' "t1" "thread" = Some (VThread t)
      ∧ field_of s' "t1" "status" = Some (VStr "stopping")
      ∧ field_of s' "t1" "is_running" = Some (VBool (always_running t))
      ∧ threads s' = threads demo_two.
Proof.
  assert (Hr : reachable demo_two).
  { unfold demo_two, demo_started. repeat constructor. }
  assert (Hl : background_tasks demo_two !! "t1" = Some 0) by (vm_compute; reflexivity).
  split; [exact Hr|]. split; [exact Hl|].
  exact (stop_task_is_advisory demo_two "t1" 0 always_running Hr Hl).
Defined.

(** X12.  After [cleanup_task] the id is unknown: [stop_task] returns
    [False] and [check_task] returns an empty dictionary, from every state. *)
Theorem cleanup_then_miss s task_id running :
  (stop_task task_id (cleanup_task task_id s).2).1 = Ok false
  ∧ ∃ l s', check_task task_id running (cleanup_task task_id s).2 = (Ok l, s')
            ∧ heap s' !!! l = ∅.
Proof.
  assert (Hl : background_tasks (cleanup_task task_id s).2 !! task_id = None).
  { rewrite cleanup_task_registry. apply lookup_delete_eq. }
  split.
  - by rewrite stop_task_absent.
  - rewrite check_task_absent by done. eexists _, _. split; [reflexivity|].
    cbn. by rewrite lookup_total_insert_eq.
Qed.

(** X13.  The life of a task leaves no trace in the registry.  Starting a
    task under an id that was free, requesting its stop and cleaning it up
    gives back the registry there was: the same ids with the same records. *)
Theorem lifecycle_restores_registry s task_id worker_func args kwargs clock :
  reachable s →
  background_tasks s !! task_id = None →
  let s' := run_calls [CallStart task_id worker_func args kwargs clock;
                       CallStop task_id; CallCleanup task_id] s in
  background_tasks s' = background_tasks s
  ∧ ∀ id, record_of s' id = record_of s id.
Proof.
  intros Hwf%reachable_wf Hnone. cbn [run_calls foldl exec]. cbn zeta.
  pose proof (wf_start_task task_id worker_func args kwargs clock s Hwf) as Hwf1.
  set (s1 := (start_task task_id worker_func args kwargs clock s).2) in *.
  assert (Hbt1 : background_tasks s1 = <[task_id := next_loc s]> (background_tasks s)).
  { unfold s1. by destruct (start_task_eq task_id worker_func args kwargs clock s)
      as (s' & -> & _ & Hbt & _). }
  split.
  - rewrite cleanup_task_registry, stop_task_registry, Hbt1.
    by rewrite delete_insert_eq, delete_id.
  - intros id. rewrite cleanup_task_record. case_decide as Hid.
    + subst. by rewrite record_of_None.
    + rewrite stop_task_record_other by done.
      unfold s1. by rewrite start_task_record_other.
Qed.

Lemma lifecycle_restores_registry_witness :
  reachable demo_started
  ∧ background_tasks demo_started !! "t2" = None
  ∧ let s' := run_calls [CallStart "t2" async_job [] None 3%Z;
                         CallStop "t2"; CallCleanup "t2"] demo_started in
    background_tasks s' = background_tasks demo_started
    ∧ ∀ id, record_of s' id = record_of demo_started id.
Proof.
  assert (Hr : reachable demo_started) by (unfold demo_started; constructor; constructor).
  assert (Hl : background_tasks demo_started !! "t2" = None) by (vm_compute; reflexivity).
  split; [exact Hr|]. split; [exact Hl|].
  exact (lifecycle_restores_registry demo_started "t2" async_job [] None 3%Z Hr Hl).
Defined.

(** X14.  When [start_task] takes over an id, the old record is left behind
    as it was.  A [stop_task] for the id marks the new record; a dictionary
    obtained from [check_task] before the takeover keeps its old contents and
    never shows the request. *)
Theorem overwritten_record_is_stale s task_id (l : loc) worker_func args kwargs clock :
  reachable s →
  background_tasks s !! task_id = Some l →
  let s' := run_calls [CallStart task_id worker_func args kwargs clock;
                       CallStop task_id] s in
  heap s' !!! l = heap s !!! l
  ∧ background_tasks s' !! task_id = Some (next_loc s)
  ∧ next_loc s ≠ l
  ∧ field_of s' task_id "status" = Some (VStr "stopping").
Proof.
  intros Hwf%reachable_wf Hl. cbn [run_calls foldl exec]. cbn zeta.
  assert (Hlt : l < next_loc s) by (by eapply wf_alloc).
  destruct (start_task_eq task_id worker_func args kwargs clock s)
    as (s1 & -> & _ & Hbt & Hh & _).
  cbn [snd].
  assert (Hl1 : background_tasks s1 !! task_id = Some (next_loc s))
    by (by rewrite Hbt, lookup_insert_eq).
  rewrite (stop_task_field_same _ _ _ Hl1).
  rewrite (stop_task_present _ _ _ Hl1). cbn.
  rewrite lookup_total_insert_ne by lia. rewrite Hh, lookup_total_insert_ne by lia.
  repeat split; try done. lia.
Qed.

Lemma overwritten_record_is_stale_witness :
  reachable demo_started
  ∧ background_tasks demo_started !! "t1" = Some 0
  ∧ let s' := run_calls [CallStart "t1" async_job [] None 3%Z; CallStop "t1"]
                demo_started in
    heap s' !!! 0 = heap demo_started !!! 0
    ∧ background_tasks s' !! "t1" = Some (next_loc demo_started)
    ∧ next_loc demo_started ≠ 0
    ∧ field_of s' "t1" "status" = Some (VStr "stopping").
Proof.
  assert (Hr : reachable demo_started) by (unfold demo_started; constructor; constructor).
  assert (Hl : background_tasks demo_started !! "t1" = Some 0) by (vm_compute; reflexivity).
  split; [exact Hr|]. split; [exact Hl|].
  exact (overwritten_record_is_stale demo_started "t1" 0 async_job [] None 3%Z Hr Hl).
Defined.

(** ** send_direct beyond one call *)

Section send_more.
Context {TextContent JSONRPCResponse JSONRPCMessage : Type}.
Variable mk_TextContent : string → string → result TextContent.
Variable mk_JSONRPCResponse :
  string → string → tool_result TextContent → result JSONRPCResponse.
Variable mk_JSONRPCMessage : JSONRPCResponse → result JSONRPCMessage.
Variable model_dump_json : JSONRPCMessage → result string.

Local Abbreviation serialize :=
  (serialize_envelope mk_TextContent mk_JSONRPCResponse mk_JSONRPCMessage model_dump_json).
Local Abbreviation send :=
  (send_direct mk_TextContent mk_JSONRPCResponse mk_JSONRPCMessage model_dump_json).

Lemma serialize_envelope_indep message s s' :
  (serialize message s).1 = (serialize message s').1.
Proof.
  unfold serialize_envelope, mbind, M_bind, lift.
  destruct (mk_TextContent message "text") as [tc|e]; [|done].
  destruct (mk_JSONRPCResponse _ _ _) as [r|e]; [|done].
  destruct (mk_JSONRPCMessage r) as [m|e]; done.
Qed.

Lemma send_direct_success message serialized s :
  (serialize message s).1 = Ok serialized →
  send message {| write_fault := None; flush_fault := None |} s
  = (Ok true,
     set_log (λ l, (l ++ [(INFO, "Sent direct message: "
                                 +:+ String.substring 0 100 serialized +:+ "...")])%list)
       (set_stdout "" (stdout_flushed s +:+ (stdout_buffer s +:+ (serialized +:+ newline))) s)).
Proof.
  intros Hser. unfold send_direct, try_except_Exception, mbind, M_bind.
  rewrite (serialize_envelope_state mk_TextContent), Hser. reflexivity.
Qed.

(** X15.  Whatever happens in [send_direct], the task registry, its records
    and the thread objects are as before. *)
Theorem send_direct_frame message io s :
  let s' := (send_direct mk_TextContent mk_JSONRPCResponse mk_JSONRPCMessage
               model_dump_json message io s).2 in
  provider_name s' = provider_name s
  ∧ background_tasks s' = background_tasks s
  ∧ heap s' = heap s
  ∧ threads s' = threads s.
Proof.
  cbn zeta.
  unfold send_direct, try_except_Exception, mbind, M_bind.
  rewrite (serialize_envelope_state mk_TextContent).
  destruct (serialize message s).1 as [serialized|e].
  - destruct io as [[e|] [e'|]]; cbn; try destruct (is_Exception e); try done.
    by destruct (is_Exception e').
  - by destruct (is_Exception e).
Qed.

(** X16.  Two messages sent one after the other over a working stream reach
    the consumer in that order, each as its serialized text followed by a
    newline, after whatever was pending; nothing stays in the buffer. *)
Theorem send_direct_in_order message1 message2 serialized1 serialized2 s :
  (serialize message1 s).1 = Ok serialized1 →
  (serialize message2 s).1 = Ok serialized2 →
  ∃ s1 s2,
    send message1 {| write_fault := None; flush_fault := None |} s = (Ok true, s1)
    ∧ send message2 {| write_fault := None; flush_fault := None |} s1 = (Ok true, s2)
    ∧ stdout_flushed s2
      = (stdout_flushed s +:+ (stdout_buffer s +:+ (serialized1 +:+ newline)))
        +:+ (serialized2 +:+ newline)
    ∧ stdout_buffer s2 = "".
Proof.
  intros H1 H2. eexists _, _. split; [by apply send_direct_success|].
  split; [apply send_direct_success; by rewrite <- H2; apply serialize_envelope_indep|].
  done.
Qed.

(** X17.  [send_direct] catches [Exception] and nothing wider.  When
    serializing, writing or flushing raises an exception that is not an
    instance of [Exception], such as [KeyboardInterrupt], it leaves
    [send_direct] as it is, and no error record is logged. *)
Theorem send_direct_propagates message io s e :
  ((serialize message s).1 = Raise e
   ∨ (∃ serialized, (serialize message s).1 = Ok serialized
                    ∧ (write_fault io = Some e
                       ∨ (write_fault io = None ∧ flush_fault io = Some e)))) →
  is_Exception e = false →
  ∃ s', send message io s = (Raise e, s') ∧ log s' = log s.
Proof.
  intros Hwhere He. unfold send_direct, try_except_Exception, mbind, M_bind.
  rewrite (serialize_envelope_state mk_TextContent).
  destruct Hwhere as [-> | (serialized & -> & [Hw | [Hw Hf]])].
  - rewrite He. eauto.
  - destruct io as [w f]; cbn in *. subst w. cbn. rewrite He. eauto.
  - destruct io as [w f]; cbn in *. subst w f. cbn. rewrite He. eauto.
Qed.
End send_more.

Lemma send_direct_in_order_witness :
  (serialize_envelope demo_TextContent demo_JSONRPCResponse demo_JSONRPCMessage
     demo_model_dump_json "one" demo_started).1 = Ok "2.0|MCPC_CALLBACK|one"
  ∧ (serialize_envelope demo_TextContent demo_JSONRPCResponse demo_JSONRPCMessage
       demo_model_dump_json "two" demo_started).1 = Ok "2.0|MCPC_CALLBACK|two"
  ∧ ∃ s1 s2,
      send_direct demo_TextContent demo_JSONRPCResponse demo_JSONRPCMessage
        demo_model_dump_json "one" {| write_fault := None; flush_fault := None |}
        demo_started = (Ok true, s1)
      ∧ send_direct demo_TextContent demo_JSONRPCResponse demo_JSONRPCMessage
          demo_model_dump_json "two" {| write_fault := None; flush_fault := None |}
          s1 = (Ok true, s2)
      ∧ stdout_flushed s2
        = (stdout_flushed demo_started
           +:+ (stdout_buffer demo_started +:+ ("2.0|MCPC_CALLBACK|one" +:+ newline)))
          +:+ ("2.0|MCPC_CALLBACK|two" +:+ newline)
      ∧ stdout_buffer s2 = "".
Proof.
  assert (H1 : (serialize_envelope demo_TextContent demo_JSONRPCResponse demo_JSONRPCMessage
                  demo_model_dump_json "one" demo_started).1 = Ok "2.0|MCPC_CALLBACK|one")
    by reflexivity.
  assert (H2 : (serialize_envelope demo_TextContent demo_JSONRPCResponse demo_JSONRPCMessage
                  demo_model_dump_json "two" demo_started).1 = Ok "2.0|MCPC_CALLBACK|two")
    by reflexivity.
  split; [exact H1|]. split; [exact H2|].
  exact (send_direct_in_order demo_TextContent demo_JSONRPCResponse demo_JSONRPCMessage
           demo_model_dump_json "one" "two" _ _ demo_started H1 H2).
Defined.

Lemma send_direct_propagates_witness :
  ((serialize_envelope demo_TextContent demo_JSONRPCResponse demo_JSONRPCMessage
      demo_model_dump_json "one" demo_started).1 = Raise (Exn KeyboardInterrupt "")
   ∨ (∃ serialized,
        (serialize_envelope demo_TextContent demo_JSONRPCResponse demo_JSONRPCMessage
           demo_model_dump_json "one" demo_started).1 = Ok serialized
        ∧ (write_fault interrupted = Some (Exn KeyboardInterrupt "")
           ∨ (write_fault interrupted = None
              ∧ flush_fault interrupted = Some (Exn KeyboardInterrupt "")))))
  ∧ is_Exception (Exn KeyboardInterrupt "") = false
  ∧ ∃ s', send_direct demo_TextContent demo_JSONRPCResponse demo_JSONRPCMessage
            demo_model_dump_json "one" interrupted demo_started
          = (Raise (Exn KeyboardInterrupt ""), s')
          ∧ log s' = log demo_started.
Proof.
  assert (H1 :
    (serialize_envelope demo_TextContent demo_JSONRPCResponse demo_JSONRPCMessage
       demo_model_dump_json "one" demo_started).1 = Raise (Exn KeyboardInterrupt "")
    ∨ (∃ serialized,
         (serialize_envelope demo_TextContent demo_JSONRPCResponse demo_JSONRPCMessage
            demo_model_dump_json "one" demo_started).1 = Ok serialized
         ∧ (write_fault interrupted = Some (Exn KeyboardInterrupt "")
            ∨ (write_fault interrupted = None
               ∧ flush_fault interrupted = Some (Exn KeyboardInterrupt ""))))).
  { right. eexists. split; [reflexivity|]. right. split; reflexivity. }
  assert (H2 : is_Exception (Exn KeyboardInterrupt "") = false) by reflexivity.
  split; [exact H1|]. split; [exact H2|].
  exact (send_direct_propagates demo_TextContent demo_JSONRPCResponse demo_JSONRPCMessage
           demo_model_dump_json "one" interrupted demo_started _ H1 H2).
Defined.

(** ** The thread body *)

Lemma run_async_wrapper work worker_func args kwargs e :
  run_target work (async_wrapper worker_func args kwargs) e
  = (match work worker_func args kwargs with
     | Ok _ => Ok VNone
     | Raise x => Raise x
     end,
     {| loops := <[next_loop e := {| loop_closed := true |}]> (loops e);
        next_loop := S (next_loop e);
        current_loop := Some (next_loop e) |}).
Proof.
  unfold run_target, mbind, T_bind, new_event_loop, set_event_loop, try_finally,
    run_until_complete, loop_close.
  cbn. rewrite lookup_insert_eq. cbn.
  destruct (work worker_func args kwargs); cbn; by rewrite insert_insert_eq.
Qed.

(** X18.  The wrapper around a coroutine function runs it on an event loop
    of its own, created for the run, and closes that loop on the way out
    whether the work returned or raised.  An exception of the work leaves the
    wrapper unchanged; a result is dropped.  Loops that existed before are
    not touched, and the closed loop stays installed as the thread's current
    one. *)
Theorem async_wrapper_closes_loop work worker_func args kwargs e :
  ∃ r e', run_target work (async_wrapper worker_func args kwargs) e = (r, e')
    ∧ r = match work worker_func args kwargs with
          | Ok _ => Ok VNone
          | Raise x => Raise x
          end
    ∧ loops e' !! next_loop e = Some {| loop_closed := true |}
    ∧ current_loop e' = Some (next_loop e)
    ∧ next_loop e' = S (next_loop e)
    ∧ ∀ l, l ≠ next_loop e → loops e' !! l = loops e !! l.
Proof.
  rewrite run_async_wrapper. eexists _, _. split; [reflexivity|].
  cbn. repeat split.
  - by rewrite lookup_insert_eq.
  - intros l Hl. by rewrite lookup_insert_ne.
Qed.

(** X19.  The thread that [start_task] launches runs the caller's function
    on the arguments given, with [{}] for absent keyword arguments: a
    coroutine function on a private event loop that is closed afterwards, a
    plain function directly, with its outcome as the outcome of the thread
    body and no event loop created. *)
Theorem started_thread_runs_work s task_id worker_func args kwargs clock work e :
  ∃ s1 th,
    start_task task_id worker_func args kwargs clock s = (Ok tt, s1)
    ∧ threads s1 !! next_thread s = Some th
    ∧ field_of s1 task_id "thread" = Some (VThread (next_thread s))
    ∧ run_target work (target th) e
      = if iscoroutinefunction worker_func
        then (match work worker_func args (kwargs_or_empty kwargs) with
              | Ok _ => Ok VNone
              | Raise x => Raise x
              end,
              {| loops := <[next_loop e := {| loop_closed := true |}]> (loops e);
                 next_loop := S (next_loop e);
                 current_loop := Some (next_loop e) |})
        else (work worker_func args (kwargs_or_empty kwargs), e).
Proof.
  pose proof (start_task_record_same task_id worker_func args kwargs clock s) as Hrec.
  destruct (start_task_eq task_id worker_func args kwargs clock s)
    as (s1 & Heq & _ & _ & _ & _ & Hth & _).
  rewrite Heq in Hrec. cbn [snd] in Hrec.
  exists s1, (launched (wrap worker_func args kwargs)).
  split; [done|]. split; [by rewrite Hth, lookup_insert_eq|].
  split; [by rewrite (field_of_record _ _ _ _ Hrec)|].
  unfold launched, wrap. cbn [target].
  destruct (iscoroutinefunction worker_func); [apply run_async_wrapper|done].
Qed.

(** A coroutine that fails: the exception comes out of the thread body and
    the loop made for it is closed. *)
Example async_wrapper_failing_work :
  run_target failing_work (async_wrapper async_job [] ∅) fresh_env
  = (Raise (Exn ValueError "boom"),
     {| loops := {[ 0 := {| loop_closed := true |} ]}; next_loop := 1;
        current_loop := Some 0 |}).
Proof. vm_compute. reflexivity. Qed.

(** A plain function: its result is the result of the thread body. *)
Example sync_wrapper_returns :
  run_target demo_work (sync_wrapper sync_job [] ∅) fresh_env = (Ok (VStr "done"), fresh_env).
Proof. reflexivity. Qed.
